(** * TagStudio: the tag search panel ([src/qt/modals/tag_search.py])

    A shallow embedding of [TagSearchPanel]: the panel object is a record,
    its methods ([update_tags], [on_return], [showEvent]) are state
    transformers, the Qt widgets it builds are constructors of [Widget], and
    the calls it makes on its collaborators (signal emissions, focus changes,
    modal openings) are appended to a trace of [Effect]s.

    Python data is rendered as follows: [int] as [Z], [str] as [string]
    (ordered by code point, as [str.__lt__] does), [len] as [String.length],
    [list] as [list], [x | None] as [option x], a tuple key as a pair ordered
    the way Python orders tuples. *)

From Stdlib Require Import List String Ascii ZArith Bool Arith Lia.
From Stdlib Require Import Sorted Permutation OrderedTypeEx.
Import ListNotations.

Local Open Scope list_scope.

(** ** Keys and [list.sort(key=...)] *)

(** What [list.sort] needs of a key: [<] (the only comparison the sort
    performs) and [==] (which tuple comparison uses to find the first
    position where two tuples differ). *)
Class KeyOps (K : Type) : Type := {
  klt : K -> K -> bool;
  keqb : K -> K -> bool
}.

#[export] Instance nat_KeyOps : KeyOps nat :=
  {| klt := Nat.ltb; keqb := Nat.eqb |}.

#[export] Instance str_KeyOps : KeyOps string :=
  {| klt := String.ltb; keqb := String.eqb |}.

(** Python compares tuples lexicographically: the first components that are
    not [==] decide, by [<]. *)
#[export] Instance tuple_KeyOps {K1 K2 : Type} `{KeyOps K1} `{KeyOps K2}
  : KeyOps (K1 * K2) :=
  {| klt := fun p q =>
       if keqb (fst p) (fst q) then klt (snd p) (snd q)
       else klt (fst p) (fst q);
     keqb := fun p q => keqb (fst p) (fst q) && keqb (snd p) (snd q) |}.

Section ListSort.
Context {A K : Type} `{KeyOps K}.
Variable key : A -> K.

(** [x] enters a sorted list in front of the first element whose key is
    not smaller than its own. *)
Fixpoint sort_insert (x : A) (l : list A) : list A :=
  match l with
  | [] => [x]
  | y :: l' =>
      if klt (key y) (key x) then y :: sort_insert x l'
      else x :: y :: l'
  end.

(** [l.sort(key=key)]: a stable sort, ascending in the key. Elements are
    entered from the last to the first, so that among equal keys the
    earlier element of [l] stays in front. *)
Definition list_sort (l : list A) : list A :=
  fold_right sort_insert [] l.

(** [a] may stand before [b] in a list sorted by [key]. *)
Definition key_le (a b : A) : Prop := klt (key b) (key a) = false.

(** The elements of [l] whose key is [k], in the order they have in [l]. *)
Definition with_key (k : K) (l : list A) : list A :=
  filter (fun x => keqb (key x) k) l.
End ListSort.

(** The key [lambda x: (key1(x), key2(x))]. *)
Definition both_keys {A K1 K2 : Type} (key1 : A -> K1) (key2 : A -> K2)
    (x : A) : K1 * K2 :=
  (key1 x, key2 x).

(** ** Data model *)

(** [src.core.library.Tag], with the two fields the panel reads. *)
Record Tag : Type := {
  id : Z;
  name : string
}.

(** [src.core.library.Library], with the two methods the ranking calls. *)
Record Library : Type := {
  search_tags : option string -> list Tag;
  tag_display_name : Z -> string
}.

(** The widgets placed in [scroll_layout]: a row built by
    [__build_row_item_widget] (the tag, whether its [TagWidget] has a remove
    button, and whether an add button is present) or the container built by
    [build_create_tag_button]. Colours and style sheets are left out. *)
Inductive Widget : Type :=
| RowItem (tag : Tag) (has_remove : bool) (add_button : bool)
| CreateTagButton (query : option string).

(** What the panel does to the outside. *)
Inductive Effect : Type :=
| TagChosenEmit (tag_id : Z)          (* [self.tag_chosen.emit(tag_id)] *)
| SearchFieldSetFocus                 (* [self.search_field.setFocus()] *)
| ParentWidgetHide                    (* [self.parentWidget().hide()] *)
| CreateAndAddTag (tag_name : string) (* [self.create_and_add_tag(name)] *).

Record TagSearchPanel : Type := {
  lib : Library;
  exclude : list Z;
  is_tag_chooser : bool;
  is_initialized : bool;
  first_tag_id : option Z;
  search_field : string;
  scroll_layout : list Widget;
  effects : list Effect
}.

(** [TagSearchPanel.__init__], with its defaults spelled out by [None]. *)
Definition init (library : Library) (excl : option (list Z))
    (chooser : option bool) : TagSearchPanel :=
  {| lib := library;
     exclude := match excl with Some l => l | None => [] end;
     is_tag_chooser := match chooser with Some b => b | None => true end;
     is_initialized := false;
     first_tag_id := None;
     search_field := EmptyString;
     scroll_layout := [];
     effects := [] |}.

(** [x in l] on a list of integers. *)
Definition in_list (x : Z) (l : list Z) : bool := existsb (Z.eqb x) l.

(** The tags shown by a layout, top to bottom. *)
Definition layout_tags (ws : list Widget) : list Tag :=
  flat_map (fun w => match w with
                     | RowItem t _ _ => [t]
                     | CreateTagButton _ => []
                     end) ws.

Definition displayed (self : TagSearchPanel) : list Tag :=
  layout_tags (scroll_layout self).

Definition emitted (es : list Effect) : list Z :=
  flat_map (fun e => match e with TagChosenEmit i => [i] | _ => [] end) es.

Section Panel.
(** [src.core.constants], not part of this file. *)
Variables RESERVED_TAG_START RESERVED_TAG_END : Z.
(** [str.lower]. *)
Variable lower : string -> string.

(** [self.lib.tag_display_name(tag.id)] *)
Definition display_name (l : Library) (tag : Tag) : string :=
  tag_display_name l (id tag).

(** [len(self.lib.tag_display_name(tag.id))] *)
Definition display_len (l : Library) (tag : Tag) : nat :=
  String.length (display_name l tag).

(** [tag.name.lower().startswith(q.lower())] *)
Definition name_starts_with (q : string) (tag : Tag) : bool :=
  String.prefix (lower q) (lower (name tag)).

(** [query and tag.name.lower().startswith(query.lower())] *)
Definition prefix_match (query : option string) (tag : Tag) : bool :=
  match query with
  | None => false
  | Some q => negb (String.eqb q EmptyString) && name_starts_with q tag
  end.

(** One turn of the loop over [tag_results] (lines 240-246). *)
Definition classify (excl : list Z) (query : option string)
    (acc : list Tag * list Tag) (tag : Tag) : list Tag * list Tag :=
  if in_list (id tag) excl then acc
  else if prefix_match query tag then (fst acc ++ [tag], snd acc)
  else (fst acc, snd acc ++ [tag]).

Definition buckets (excl : list Z) (query : option string)
    (tag_results : list Tag) : list Tag * list Tag :=
  fold_left (classify excl query) tag_results ([], []).

(** [results_1] after its two sorts (lines 247-248). *)
Definition results_1 (l : Library) (excl : list Z) (query : option string)
    (tag_results : list Tag) : list Tag :=
  list_sort (display_len l)
    (list_sort (display_name l) (fst (buckets excl query tag_results))).

(** [results_2] after its sort (line 249). *)
Definition results_2 (l : Library) (excl : list Z) (query : option string)
    (tag_results : list Tag) : list Tag :=
  list_sort (display_name l) (snd (buckets excl query tag_results)).

(** The ranked list, [results_1 + results_2], for the tags the library
    finds. *)
Definition ranked (l : Library) (excl : list Z) (query : option string)
    : list Tag :=
  results_1 l excl query (search_tags l query)
  ++ results_2 l excl query (search_tags l query).

(** [tag.id not in self.exclude] *)
Definition not_excluded (excl : list Z) (tag : Tag) : bool :=
  negb (in_list (id tag) excl).

(** Bucket A: not excluded, and a prefix match. *)
Definition in_bucket_a (excl : list Z) (query : option string)
    (tag : Tag) : bool :=
  not_excluded excl tag && prefix_match query tag.

(** Bucket B: not excluded, and no prefix match. *)
Definition in_bucket_b (excl : list Z) (query : option string)
    (tag : Tag) : bool :=
  not_excluded excl tag && negb (prefix_match query tag).

(** [__build_row_item_widget] *)
Definition build_row_item_widget (chooser : bool) (tag : Tag) : Widget :=
  let has_remove_button :=
    if negb chooser
    then negb ((RESERVED_TAG_START <=? id tag)%Z
               && (id tag <? RESERVED_TAG_END)%Z)
    else false in
  RowItem tag has_remove_button chooser.

(** [update_tags]: the layout is emptied and rebuilt. *)
Definition update_tags (query : option string) (self : TagSearchPanel)
    : TagSearchPanel :=
  let tag_results := search_tags (lib self) query in
  match tag_results with
  | tag0 :: _ =>
      let r1 := results_1 (lib self) (exclude self) query tag_results in
      let r2 := results_2 (lib self) (exclude self) query tag_results in
      {| lib := lib self;
         exclude := exclude self;
         is_tag_chooser := is_tag_chooser self;
         is_initialized := is_initialized self;
         first_tag_id :=
           match r1 with
           | t :: _ => Some (id t)
           | [] => Some (id tag0)
           end;
         search_field := search_field self;
         scroll_layout :=
           map (build_row_item_widget (is_tag_chooser self)) (r1 ++ r2);
         effects := effects self ++ [SearchFieldSetFocus] |}
  | [] =>
      {| lib := lib self;
         exclude := exclude self;
         is_tag_chooser := is_tag_chooser self;
         is_initialized := is_initialized self;
         first_tag_id := None;
         search_field := search_field self;
         scroll_layout := [CreateTagButton query];
         effects := effects self ++ [SearchFieldSetFocus] |}
  end.

(** A call on a collaborator, recorded in the trace. *)
Definition perform (e : Effect) (self : TagSearchPanel) : TagSearchPanel :=
  {| lib := lib self;
     exclude := exclude self;
     is_tag_chooser := is_tag_chooser self;
     is_initialized := is_initialized self;
     first_tag_id := first_tag_id self;
     search_field := search_field self;
     scroll_layout := scroll_layout self;
     effects := effects self ++ [e] |}.

(** [self.search_field.setText(text)]; a programmatic [setText] does not
    fire [textEdited], so no slot of the panel runs. *)
Definition set_text (text : string) (self : TagSearchPanel)
    : TagSearchPanel :=
  {| lib := lib self;
     exclude := exclude self;
     is_tag_chooser := is_tag_chooser self;
     is_initialized := is_initialized self;
     first_tag_id := first_tag_id self;
     search_field := text;
     scroll_layout := scroll_layout self;
     effects := effects self |}.

(** [on_return] *)
Definition on_return (text : string) (self : TagSearchPanel)
    : TagSearchPanel :=
  if negb (String.eqb text EmptyString) then
    match first_tag_id self with
    | Some first =>
        let self1 :=
          if is_tag_chooser self then perform (TagChosenEmit first) self
          else self in
        update_tags None (set_text EmptyString self1)
    | None => perform (CreateAndAddTag text) self
    end
  else
    perform ParentWidgetHide (perform SearchFieldSetFocus self).

(** [showEvent] *)
Definition showEvent (self : TagSearchPanel) : TagSearchPanel :=
  if negb (is_initialized self) then
    let self1 := update_tags None self in
    {| lib := lib self1;
       exclude := exclude self1;
       is_tag_chooser := is_tag_chooser self1;
       is_initialized := true;
       first_tag_id := first_tag_id self1;
       search_field := search_field self1;
       scroll_layout := scroll_layout self1;
       effects := effects self1 |}
  else self.

(** The compound key of the one-pass sort: [(len(display name), display
    name)]. *)
Definition compound_key (l : Library) : Tag -> nat * string :=
  both_keys (display_len l) (display_name l).

(** Bucket A sorted once, by the compound key. *)
Definition sort_compound_key (l : Library) (ts : list Tag) : list Tag :=
  list_sort (compound_key l) ts.

(** Bucket A sorted as the source does, by name and then by length. *)
Definition sort_two_pass (l : Library) (ts : list Tag) : list Tag :=
  list_sort (display_len l) (list_sort (display_name l) ts).
End Panel.

(** ** The slots of the panel *)

(** What the event loop can deliver to the panel: an edit of the search
    field (line 70), a return in it (line 71), a click on the add button of
    the row at an index of the layout (line 162), and a show event. *)
Inductive Event : Type :=
| TextEdited (text : string)
| ReturnPressed
| AddClicked (row : nat)
| Shown.

Section Slots.
Variables RESERVED_TAG_START RESERVED_TAG_END : Z.
Variable lower : string -> string.

(** [textEdited.connect(lambda text: self.update_tags(text))]: the field
    holds the edited text when the slot runs. *)
Definition text_edited (text : string) (self : TagSearchPanel)
    : TagSearchPanel :=
  update_tags RESERVED_TAG_START RESERVED_TAG_END lower (Some text)
    (set_text text self).

(** [returnPressed.connect(lambda: self.on_return(self.search_field.text()))] *)
Definition return_pressed (self : TagSearchPanel) : TagSearchPanel :=
  on_return RESERVED_TAG_START RESERVED_TAG_END lower (search_field self) self.

(** [add_button.clicked.connect(lambda: self.tag_chosen.emit(tag_id))]: only
    a row that has an add button can be clicked. *)
Definition add_clicked (row : nat) (self : TagSearchPanel) : TagSearchPanel :=
  match nth_error (scroll_layout self) row with
  | Some (RowItem tag _ true) => perform (TagChosenEmit (id tag)) self
  | _ => self
  end.

Definition handle (e : Event) (self : TagSearchPanel) : TagSearchPanel :=
  match e with
  | TextEdited text => text_edited text self
  | ReturnPressed => return_pressed self
  | AddClicked row => add_clicked row self
  | Shown => showEvent RESERVED_TAG_START RESERVED_TAG_END lower self
  end.

(** The events of a list, delivered one after the other. *)
Definition run (es : list Event) (self : TagSearchPanel) : TagSearchPanel :=
  fold_left (fun s e => handle e s) es self.
End Slots.

(** The library returns [tag] for some query. *)
Definition found_by (l : Library) (tag : Tag) : Prop :=
  exists query, In tag (search_tags l query).

(** What holds of a panel built by [init] over [l], [excl] and [chooser],
    whatever events it has handled: its three settings are as built; its
    rows carry tags of the library that are not excluded, with an add button
    in a chooser only; its first match and the identifiers it has emitted
    are those of tags of the library, and only a chooser has emitted any. *)
Definition panel_inv (l : Library) (excl : list Z) (chooser : bool)
    (self : TagSearchPanel) : Prop :=
  lib self = l /\ exclude self = excl /\ is_tag_chooser self = chooser
  /\ (forall t r a, In (RowItem t r a) (scroll_layout self) ->
         a = chooser /\ not_excluded excl t = true /\ found_by l t)
  /\ (forall i, first_tag_id self = Some i ->
         exists t, found_by l t /\ id t = i)
  /\ (forall i, In i (emitted (effects self)) ->
         chooser = true /\ exists t, found_by l t /\ id t = i).

(** A layout as [update_tags] leaves it: one row per displayed tag, built
    for the mode of the panel, or the create-tag button alone. *)
Definition layout_shape (reserved_start reserved_end : Z) (chooser : bool)
    (ws : list Widget) : Prop :=
  ws = map (build_row_item_widget reserved_start reserved_end chooser)
           (layout_tags ws)
  \/ exists query, ws = [CreateTagButton query].

(** The prefix test made on the display name instead of [tag.name]:
    [self.lib.tag_display_name(tag.id).lower().startswith(q.lower())]. The
    source does not make this test; it is here to be compared with
    [name_starts_with]. *)
Definition display_starts_with (lower : string -> string) (l : Library)
    (q : string) (tag : Tag) : bool :=
  String.prefix (lower q) (lower (display_name l tag)).

(** ** Concrete instances, for running the model *)

(** [str.lower] on ASCII text: the letters A-Z move to a-z. *)
Definition lower_char (c : ascii) : ascii :=
  let n := nat_of_ascii c in
  if (65 <=? n) && (n <=? 90) then ascii_of_nat (n + 32) else c.

Fixpoint lower_ascii (s : string) : string :=
  match s with
  | EmptyString => EmptyString
  | String c s' => String (lower_char c) (lower_ascii s')
  end.

(** [needle in hay] on strings. *)
Fixpoint contains (needle hay : string) : bool :=
  String.prefix needle hay
  || match hay with
     | EmptyString => false
     | String _ hay' => contains needle hay'
     end.

Definition tag_animal : Tag := {| id := 1; name := "Animal" |}.
Definition tag_an : Tag := {| id := 2; name := "An" |}.
Definition tag_banana : Tag := {| id := 3; name := "Banana" |}.
Definition tag_ant : Tag := {| id := 4; name := "Ant" |}.
Definition tag_ana : Tag := {| id := 5; name := "Ana" |}.

Definition demo_tags : list Tag :=
  [tag_animal; tag_an; tag_banana; tag_ant; tag_ana].

(** A small library: a substring search over [demo_tags], case-insensitive,
    and the stored name as display name. *)
Definition demo_lib : Library :=
  {| search_tags := fun query =>
       match query with
       | None => demo_tags
       | Some q =>
           filter (fun t => contains (lower_ascii q) (lower_ascii (name t)))
                  demo_tags
       end;
     tag_display_name := fun i =>
       match find (fun t => Z.eqb (id t) i) demo_tags with
       | Some t => name t
       | None => EmptyString
       end |}.

Definition demo_update_tags := update_tags 0 1000 lower_ascii.
Definition demo_run := run 0 1000 lower_ascii.
Definition demo_on_return := on_return 0 1000 lower_ascii.

(** A tag chooser over [demo_lib], and a panel that is not a chooser and
    already shows something else. *)
Definition demo_chooser (excl : list Z) : TagSearchPanel :=
  init demo_lib (Some excl) None.

Definition demo_manager (excl : list Z) : TagSearchPanel :=
  {| lib := demo_lib;
     exclude := excl;
     is_tag_chooser := false;
     is_initialized := true;
     first_tag_id := Some 3%Z;
     search_field := "ban";
     scroll_layout := [RowItem tag_banana true false];
     effects := [SearchFieldSetFocus] |}.

(** A library whose display names are not its stored names: tag 1 is stored
    as ["zzz"] and displayed as ["a"], tag 2 is stored and displayed as
    ["abc"]; the search returns both. *)
Definition tag_zzz : Tag := {| id := 1; name := "zzz" |}.
Definition tag_abc : Tag := {| id := 2; name := "abc" |}.

Definition renaming_lib : Library :=
  {| search_tags := fun _ => [tag_zzz; tag_abc];
     tag_display_name := fun i =>
       if Z.eqb i 1 then "a"%string
       else if Z.eqb i 2 then "abc"%string
       else EmptyString |}.


(** ** Theory of keys *)

(** [<] is a strict total order on the keys and [==] is equality: this holds
    of Python's [int] and [str], and of tuples of such. *)
Class KeyLaws (K : Type) `{KeyOps K} : Prop := {
  klt_irrefl : forall a, klt a a = false;
  klt_trans : forall a b c, klt a b = true -> klt b c = true -> klt a c = true;
  klt_connex : forall a b, klt a b = false -> klt b a = false -> a = b;
  keqb_eq : forall a b, keqb a b = true <-> a = b
}.

Lemma str_ltb_lt (a b : string) :
  String.ltb a b = true <-> String_as_OT.lt a b.
Proof.
  unfold String.ltb. rewrite <- String_as_OT.cmp_lt.
  unfold String_as_OT.cmp.
  destruct (String.compare a b); split; congruence.
Qed.

#[export] Instance nat_KeyLaws : KeyLaws nat.
Proof.
  split; simpl; intros.
  - apply Nat.ltb_irrefl.
  - apply Nat.ltb_lt in H, H0. apply Nat.ltb_lt. lia.
  - apply Nat.ltb_ge in H, H0. lia.
  - apply Nat.eqb_eq.
Qed.

#[export] Instance str_KeyLaws : KeyLaws string.
Proof.
  split; simpl; intros.
  - unfold String.ltb.
    replace (String.compare a a) with Eq; [reflexivity|].
    symmetry. now apply String_as_OT.cmp_eq.
  - apply str_ltb_lt in H, H0. apply str_ltb_lt.
    eapply String_as_OT.lt_trans; eassumption.
  - unfold String.ltb in *. rewrite String.compare_antisym in H0.
    apply String_as_OT.cmp_eq. unfold String_as_OT.cmp.
    destruct (String.compare a b); simpl in *; congruence.
  - apply String.eqb_eq.
Qed.

Section KeyFacts.
Context {K : Type} `{KeyLaws K}.

Lemma klt_asym (a b : K) : klt a b = true -> klt b a = false.
Proof.
  intros Hab. destruct (klt b a) eqn:Hba; [|reflexivity].
  rewrite <- (klt_irrefl a). symmetry. eapply klt_trans; eassumption.
Qed.

Lemma kle_trans (a b c : K) :
  klt b a = false -> klt c b = false -> klt c a = false.
Proof.
  intros Hab Hbc. destruct (klt c a) eqn:Hca; [|reflexivity].
  destruct (klt a b) eqn:E.
  - rewrite <- Hbc. symmetry. eapply klt_trans; eassumption.
  - assert (a = b) by (apply klt_connex; assumption).
    subst. congruence.
Qed.

Lemma keqb_refl (a : K) : keqb a a = true.
Proof. now apply keqb_eq. Qed.

Lemma keqb_neq (a b : K) : keqb a b = false <-> a <> b.
Proof.
  split.
  - intros E Heq. apply keqb_eq in Heq. congruence.
  - intros Hne. destruct (keqb a b) eqn:E; [|reflexivity].
    apply keqb_eq in E. contradiction.
Qed.

Lemma klt_keqb (a b : K) : klt a b = true -> keqb a b = false.
Proof.
  intros Hlt. apply keqb_neq. intros ->.
  rewrite klt_irrefl in Hlt. discriminate.
Qed.
End KeyFacts.

#[export] Instance tuple_KeyLaws {K1 K2 : Type}
  `{KeyLaws K1} `{KeyLaws K2} : KeyLaws (K1 * K2).
Proof.
  split.
  - intros [a1 a2]. simpl. rewrite keqb_refl. apply klt_irrefl.
  - intros [a1 a2] [b1 b2] [c1 c2]. simpl.
    destruct (keqb a1 b1) eqn:Eab.
    + apply keqb_eq in Eab. subst b1.
      destruct (keqb a1 c1) eqn:Eac; [|tauto].
      apply klt_trans.
    + intros Hab. destruct (keqb b1 c1) eqn:Ebc.
      * apply keqb_eq in Ebc. subst c1. rewrite Eab. auto.
      * intros Hbc.
        assert (Hac : klt a1 c1 = true) by (eapply klt_trans; eassumption).
        rewrite (klt_keqb _ _ Hac). exact Hac.
  - intros [a1 a2] [b1 b2]. simpl.
    destruct (keqb a1 b1) eqn:Eab.
    + apply keqb_eq in Eab. subst b1. rewrite keqb_refl.
      intros. f_equal. now apply klt_connex.
    + destruct (keqb b1 a1) eqn:Eba.
      * apply keqb_eq in Eba. subst. rewrite keqb_refl in Eab. discriminate.
      * intros H3 H4. apply keqb_neq in Eab. exfalso. apply Eab.
        now apply klt_connex.
  - intros [a1 a2] [b1 b2]. simpl. rewrite andb_true_iff, !keqb_eq.
    split; [intros [-> ->]; reflexivity | intros E; inversion E; auto].
Qed.

(** ** Theory of [list_sort] *)

Section ListSortTheory.
Context {A K : Type} `{KeyLaws K}.
Variable key : A -> K.

Lemma sort_insert_perm (x : A) (l : list A) :
  Permutation (sort_insert key x l) (x :: l).
Proof.
  induction l as [|y l IH]; simpl.
  - apply Permutation_refl.
  - destruct (klt (key y) (key x)).
    + rewrite IH. apply perm_swap.
    + apply Permutation_refl.
Qed.

Lemma list_sort_perm (l : list A) : Permutation (list_sort key l) l.
Proof.
  induction l as [|x l IH]; simpl.
  - apply perm_nil.
  - rewrite sort_insert_perm. now apply perm_skip.
Qed.

Lemma list_sort_In (x : A) (l : list A) :
  In x (list_sort key l) <-> In x l.
Proof.
  split; apply Permutation_in;
    [apply list_sort_perm | apply Permutation_sym, list_sort_perm].
Qed.

Lemma list_sort_nil_inv (l : list A) : list_sort key l = [] -> l = [].
Proof.
  intros E. apply Permutation_nil.
  rewrite <- E. apply list_sort_perm.
Qed.

Lemma sort_insert_sorted (x : A) (l : list A) :
  StronglySorted (key_le key) l ->
  StronglySorted (key_le key) (sort_insert key x l).
Proof.
  induction 1 as [|y l Hl IH Hy]; simpl.
  - constructor; constructor.
  - destruct (klt (key y) (key x)) eqn:E.
    + constructor; [exact IH|].
      apply (Permutation_Forall (Permutation_sym (sort_insert_perm x l))).
      constructor; [|exact Hy].
      unfold key_le. now apply klt_asym.
    + constructor; [now constructor|].
      constructor; [exact E|].
      eapply Forall_impl; [|exact Hy].
      unfold key_le. intros z Hz. eapply kle_trans; eassumption.
Qed.

(** The result of the sort is ascending in the key. *)
Lemma list_sort_sorted (l : list A) :
  StronglySorted (key_le key) (list_sort key l).
Proof.
  induction l as [|x l IH]; simpl.
  - constructor.
  - now apply sort_insert_sorted.
Qed.

Lemma with_key_sort_insert (k : K) (x : A) (l : list A) :
  with_key key k (sort_insert key x l) = with_key key k (x :: l).
Proof.
  induction l as [|y l IH]; simpl; [reflexivity|].
  destruct (klt (key y) (key x)) eqn:E; [|reflexivity].
  simpl. fold (with_key key k (sort_insert key x l)). rewrite IH. simpl.
  destruct (keqb (key y) k) eqn:Ey; [|reflexivity].
  destruct (keqb (key x) k) eqn:Ex; [|reflexivity].
  apply keqb_eq in Ex, Ey. rewrite Ex, <- Ey, klt_irrefl in E.
  discriminate.
Qed.

(** The sort is stable: elements with one key keep their order. *)
Lemma with_key_list_sort (k : K) (l : list A) :
  with_key key k (list_sort key l) = with_key key k l.
Proof.
  induction l as [|x l IH]; simpl; [reflexivity|].
  rewrite with_key_sort_insert. simpl.
  fold (with_key key k (list_sort key l)). now rewrite IH.
Qed.

Lemma with_key_In (k : K) (x : A) (l : list A) :
  In x (with_key key k l) <-> In x l /\ key x = k.
Proof.
  unfold with_key. rewrite filter_In, keqb_eq. reflexivity.
Qed.

(** Two lists that are ascending in the key and agree on the order of the
    elements of each key are one list: a stable sort has one result. *)
Lemma stable_sort_unique (l1 l2 : list A) :
  StronglySorted (key_le key) l1 ->
  StronglySorted (key_le key) l2 ->
  (forall k, with_key key k l1 = with_key key k l2) ->
  l1 = l2.
Proof.
  intros S1. revert l2.
  induction S1 as [|x l1 S1 IH Hx]; intros l2 S2 Hk.
  - destruct l2 as [|y l2]; [reflexivity|].
    specialize (Hk (key y)). simpl in Hk. rewrite keqb_refl in Hk.
    discriminate.
  - destruct S2 as [|y l2 S2 Hy].
    + specialize (Hk (key x)). simpl in Hk. rewrite keqb_refl in Hk.
      discriminate.
    + assert (Hxy : key x = key y).
      { apply klt_connex.
        - assert (Hin : In x (with_key key (key x) (y :: l2))).
          { rewrite <- Hk. simpl. rewrite keqb_refl. now left. }
          apply with_key_In in Hin. destruct Hin as [[->|Hin] _].
          + apply klt_irrefl.
          + rewrite Forall_forall in Hy. exact (Hy _ Hin).
        - assert (Hin : In y (with_key key (key y) (x :: l1))).
          { rewrite Hk. simpl. rewrite keqb_refl. now left. }
          apply with_key_In in Hin. destruct Hin as [[->|Hin] _].
          + apply klt_irrefl.
          + rewrite Forall_forall in Hx. exact (Hx _ Hin). }
      assert (x = y).
      { specialize (Hk (key x)). simpl in Hk.
        rewrite <- Hxy, keqb_refl in Hk. congruence. }
      subst y. f_equal. apply IH; [exact S2|].
      intros k. specialize (Hk k). simpl in Hk.
      destruct (keqb (key x) k); congruence.
Qed.

(** So [list_sort] is the stable sort: any list with the two properties
    that Python documents of [list.sort] is its result. *)
Lemma list_sort_characterised (l l' : list A) :
  StronglySorted (key_le key) l' ->
  (forall k, with_key key k l' = with_key key k l) ->
  l' = list_sort key l.
Proof.
  intros S Hk. apply stable_sort_unique; [exact S | apply list_sort_sorted |].
  intros k. now rewrite with_key_list_sort.
Qed.

Lemma filter_sorted (R : A -> A -> Prop) (p : A -> bool) (l : list A) :
  StronglySorted R l -> StronglySorted R (filter p l).
Proof.
  induction 1 as [|x l Hl IH Hx]; simpl; [constructor|].
  destruct (p x); [|exact IH].
  constructor; [exact IH|].
  rewrite Forall_forall in *. intros y Hy.
  apply filter_In in Hy. now apply Hx.
Qed.

(** In a sorted list, the element at the smaller index is the smaller. *)
Lemma sorted_nth (R : A -> A -> Prop) (l : list A) :
  StronglySorted R l ->
  forall i j a b,
    nth_error l i = Some a -> nth_error l j = Some b -> i < j -> R a b.
Proof.
  induction 1 as [|x l Hl IH Hx]; intros i j a b Hi Hj Hij.
  - destruct i; discriminate.
  - destruct j as [|j]; [lia|]. simpl in Hj.
    destruct i as [|i]; simpl in Hi.
    + injection Hi as ->. rewrite Forall_forall in Hx.
      apply Hx. eapply nth_error_In; eassumption.
    + eapply IH; try eassumption. lia.
Qed.
End ListSortTheory.

(** ** Two stable sorts in a row *)

Section TwoPass.
Context {A K1 K2 : Type} `{KeyLaws K1} `{KeyLaws K2}.
Variables (key1 : A -> K1) (key2 : A -> K2).

Lemma with_both_keys (k1 : K1) (k2 : K2) (l : list A) :
  with_key (both_keys key1 key2) (k1, k2) l
  = with_key key2 k2 (with_key key1 k1 l).
Proof.
  induction l as [|x l IH]; simpl; [reflexivity|].
  fold (with_key (both_keys key1 key2) (k1, k2) l). fold (with_key key1 k1 l).
  rewrite IH. destruct (keqb (key1 x) k1); simpl; [|reflexivity].
  reflexivity.
Qed.

Lemma with_key_comm (k1 : K1) (k2 : K2) (l : list A) :
  with_key key2 k2 (with_key key1 k1 l)
  = with_key key1 k1 (with_key key2 k2 l).
Proof.
  induction l as [|x l IH]; simpl; [reflexivity|].
  fold (with_key key1 k1 l). fold (with_key key2 k2 l).
  destruct (keqb (key1 x) k1) eqn:E1, (keqb (key2 x) k2) eqn:E2; simpl;
    rewrite ?E1, ?E2; fold (with_key key1 k1 (with_key key2 k2 l));
    fold (with_key key2 k2 (with_key key1 k1 l)); now rewrite IH.
Qed.

(** A list ascending in the first key, whose elements of each first key
    are ascending in the second, is ascending in the pair. *)
Lemma sorted_both_keys (l : list A) :
  StronglySorted (key_le key1) l ->
  (forall k1, StronglySorted (key_le key2) (with_key key1 k1 l)) ->
  StronglySorted (key_le (both_keys key1 key2)) l.
Proof.
  induction 1 as [|x l Hl IH Hx]; intros Hk; [constructor|].
  constructor.
  - apply IH. intros k1. specialize (Hk k1). simpl in Hk.
    destruct (keqb (key1 x) k1); [|exact Hk].
    now apply StronglySorted_inv in Hk.
  - rewrite Forall_forall in *. intros y Hy.
    unfold key_le, both_keys. simpl.
    destruct (keqb (key1 y) (key1 x)) eqn:E; [|now apply Hx].
    apply keqb_eq in E.
    specialize (Hk (key1 x)). simpl in Hk. rewrite keqb_refl in Hk.
    apply StronglySorted_inv in Hk. destruct Hk as [_ Hk].
    rewrite Forall_forall in Hk. apply Hk.
    apply with_key_In. auto.
Qed.

(** Sorting by the second key and then by the first is sorting by the
    pair. *)
Lemma two_pass_sort (l : list A) :
  list_sort key1 (list_sort key2 l) = list_sort (both_keys key1 key2) l.
Proof.
  apply list_sort_characterised.
  - apply sorted_both_keys; [apply list_sort_sorted|].
    intros k1. rewrite with_key_list_sort.
    apply filter_sorted, list_sort_sorted.
  - intros [k1 k2]. rewrite !with_both_keys, with_key_list_sort.
    rewrite with_key_comm, with_key_list_sort.
    symmetry. apply with_key_comm.
Qed.

(** Where an element with the smaller pair stands in a list sorted by the
    pair. *)
Lemma sorted_both_keys_before (l : list A) (i j : nat) (a b : A) :
  StronglySorted (key_le (both_keys key1 key2)) l ->
  nth_error l i = Some a -> nth_error l j = Some b ->
  klt ((both_keys key1 key2) a) ((both_keys key1 key2) b) = true ->
  i < j.
Proof.
  intros S Hi Hj Hlt.
  destruct (Nat.lt_trichotomy i j) as [Hij|[Hij|Hij]]; [exact Hij| |].
  - subst j. rewrite Hi in Hj. injection Hj as ->.
    rewrite klt_irrefl in Hlt. discriminate.
  - pose proof (sorted_nth _ _ S _ _ _ _ Hj Hi Hij) as Hle.
    unfold key_le in Hle. congruence.
Qed.
End TwoPass.

(** ** The ranking of [update_tags] *)

Lemma in_list_In (x : Z) (l : list Z) : in_list x l = true <-> In x l.
Proof.
  unfold in_list. rewrite existsb_exists. split.
  - intros [y [Hy E]]. apply Z.eqb_eq in E. now subst.
  - intros Hx. exists x. split; [exact Hx | apply Z.eqb_refl].
Qed.

Lemma emitted_app (es es' : list Effect) :
  emitted (es ++ es') = emitted es ++ emitted es'.
Proof. unfold emitted. apply flat_map_app. Qed.

Lemma list_sort_ext {A K : Type} `{KeyOps K} (key key' : A -> K)
    (l : list A) :
  (forall x, key x = key' x) -> list_sort key l = list_sort key' l.
Proof.
  intros E. induction l as [|x l IH]; simpl; [reflexivity|].
  rewrite IH. generalize (list_sort key' l). intros m.
  induction m as [|y m IHm]; simpl; [reflexivity|].
  now rewrite IHm, !E.
Qed.

Section PanelTheory.
Variables RESERVED_TAG_START RESERVED_TAG_END : Z.
Variable lower : string -> string.

Local Abbreviation update_tags :=
  (update_tags RESERVED_TAG_START RESERVED_TAG_END lower).
Local Abbreviation on_return :=
  (on_return RESERVED_TAG_START RESERVED_TAG_END lower).
Local Abbreviation build_row :=
  (build_row_item_widget RESERVED_TAG_START RESERVED_TAG_END).

Lemma fold_classify (excl : list Z) (query : option string)
    (l acc1 acc2 : list Tag) :
  fold_left (classify lower excl query) l (acc1, acc2)
  = (acc1 ++ filter (in_bucket_a lower excl query) l,
     acc2 ++ filter (in_bucket_b lower excl query) l).
Proof.
  revert acc1 acc2. induction l as [|t l IH]; intros acc1 acc2; simpl.
  - now rewrite !app_nil_r.
  - unfold classify at 2, in_bucket_a, in_bucket_b, not_excluded. simpl.
    destruct (in_list (id t) excl); simpl; [apply IH|].
    destruct (prefix_match lower query t); simpl;
      rewrite IH, <- app_assoc; reflexivity.
Qed.

(** The loop of lines 240-246 fills the two buckets with two filters of
    [tag_results]. *)
Lemma buckets_filter (excl : list Z) (query : option string)
    (l : list Tag) :
  buckets lower excl query l
  = (filter (in_bucket_a lower excl query) l,
     filter (in_bucket_b lower excl query) l).
Proof. unfold buckets. now rewrite fold_classify. Qed.

Lemma results_1_filter (lb : Library) (excl : list Z)
    (query : option string) (l : list Tag) :
  results_1 lower lb excl query l
  = sort_two_pass lb (filter (in_bucket_a lower excl query) l).
Proof. unfold results_1. now rewrite buckets_filter. Qed.

Lemma results_2_filter (lb : Library) (excl : list Z)
    (query : option string) (l : list Tag) :
  results_2 lower lb excl query l
  = list_sort (display_name lb) (filter (in_bucket_b lower excl query) l).
Proof. unfold results_2. now rewrite buckets_filter. Qed.

Lemma In_results_1 (lb : Library) (excl : list Z) (query : option string)
    (l : list Tag) (t : Tag) :
  In t (results_1 lower lb excl query l)
  <-> In t l /\ in_bucket_a lower excl query t = true.
Proof.
  rewrite results_1_filter. unfold sort_two_pass.
  now rewrite !list_sort_In, filter_In.
Qed.

Lemma In_results_2 (lb : Library) (excl : list Z) (query : option string)
    (l : list Tag) (t : Tag) :
  In t (results_2 lower lb excl query l)
  <-> In t l /\ in_bucket_b lower excl query t = true.
Proof.
  rewrite results_2_filter. now rewrite list_sort_In, filter_In.
Qed.

Lemma layout_tags_rows (chooser : bool) (l : list Tag) :
  layout_tags (map (build_row chooser) l) = l.
Proof.
  induction l as [|t l IH]; simpl; [reflexivity|]. now rewrite IH.
Qed.

(** What [update_tags] shows is the ranked list. *)
Lemma displayed_update_tags (query : option string) (self : TagSearchPanel) :
  displayed (update_tags query self)
  = ranked lower (lib self) (exclude self) query.
Proof.
  unfold displayed, update_tags, ranked.
  destruct (search_tags (lib self) query) as [|t0 l] eqn:E; simpl.
  - reflexivity.
  - apply layout_tags_rows.
Qed.

(** The value [update_tags] leaves in [first_tag_id] (line 250 and line
    255). *)
Lemma first_tag_id_update_tags (query : option string)
    (self : TagSearchPanel) :
  first_tag_id (update_tags query self)
  = match search_tags (lib self) query with
    | [] => None
    | tag0 :: _ =>
        match results_1 lower (lib self) (exclude self) query
                (search_tags (lib self) query) with
        | t :: _ => Some (id t)
        | [] => Some (id tag0)
        end
    end.
Proof.
  unfold update_tags.
  destruct (search_tags (lib self) query); reflexivity.
Qed.

(** [update_tags] leaves the library, the exclusion list, the mode, the
    text of the search field and the emitted signals as they are. *)
Lemma update_tags_frame (query : option string) (self : TagSearchPanel) :
  lib (update_tags query self) = lib self
  /\ exclude (update_tags query self) = exclude self
  /\ is_tag_chooser (update_tags query self) = is_tag_chooser self
  /\ search_field (update_tags query self) = search_field self
  /\ emitted (effects (update_tags query self)) = emitted (effects self).
Proof.
  unfold update_tags.
  destruct (search_tags (lib self) query); simpl;
    rewrite emitted_app, app_nil_r; auto.
Qed.

(** Line 250, first arm: when some tag matches the prefix, [first_tag_id]
    is the identifier of the tag at the top of the list. *)
Lemma first_tag_id_of_prefix_match (query : option string)
    (self : TagSearchPanel) (t : Tag) (r : list Tag) :
  results_1 lower (lib self) (exclude self) query
    (search_tags (lib self) query) = t :: r ->
  first_tag_id (update_tags query self) = Some (id t)
  /\ nth_error (displayed (update_tags query self)) 0 = Some t.
Proof.
  intros E. rewrite first_tag_id_update_tags, displayed_update_tags.
  unfold ranked. rewrite E. simpl.
  destruct (search_tags (lib self) query) eqn:Es; [|auto].
  unfold results_1, buckets in E. simpl in E. discriminate.
Qed.

(** Line 250, second arm: when no tag matches the prefix, [first_tag_id]
    is the identifier of the first tag the library found, whether that
    tag is shown or not. *)
Lemma first_tag_id_without_prefix_match (query : option string)
    (self : TagSearchPanel) (tag0 : Tag) (l : list Tag) :
  search_tags (lib self) query = tag0 :: l ->
  results_1 lower (lib self) (exclude self) query (tag0 :: l) = [] ->
  first_tag_id (update_tags query self) = Some (id tag0).
Proof.
  intros Es E. rewrite first_tag_id_update_tags, Es, E. reflexivity.
Qed.

(** When every tag the library finds is excluded, nothing is shown. *)
Lemma all_excluded_nothing_displayed (query : option string)
    (self : TagSearchPanel) :
  (forall t, In t (search_tags (lib self) query) ->
             In (id t) (exclude self)) ->
  displayed (update_tags query self) = [].
Proof.
  intros Hall. rewrite displayed_update_tags. unfold ranked.
  rewrite results_1_filter, results_2_filter.
  assert (E : forall p, filter (fun t => not_excluded (exclude self) t && p t)
                          (search_tags (lib self) query) = []).
  { intros p. induction (search_tags (lib self) query) as [|t l IH];
      [reflexivity|]. simpl.
    assert (Ht : in_list (id t) (exclude self) = true)
      by (apply in_list_In, Hall; now left).
    unfold not_excluded at 1. rewrite Ht. simpl.
    apply IH. intros u Hu. apply Hall. now right. }
  unfold in_bucket_a, in_bucket_b.
  rewrite (E (prefix_match lower query)).
  rewrite (E (fun t => negb (prefix_match lower query t))).
  reflexivity.
Qed.

(** C3. Whatever the query and whatever the library finds, no tag whose
    identifier is in the exclusion list is among the tags that
    [update_tags] puts in the layout. *)
Theorem excluded_never_displayed (query : option string)
    (self : TagSearchPanel) (t : Tag) :
  In t (displayed (update_tags query self)) ->
  ~ In (id t) (exclude self).
Proof.
  rewrite displayed_update_tags. unfold ranked.
  rewrite in_app_iff, In_results_1, In_results_2.
  unfold in_bucket_a, in_bucket_b, not_excluded.
  intros [[_ Hb]|[_ Hb]] Hin; apply in_list_In in Hin;
    rewrite Hin in Hb; discriminate.
Qed.

(** C4. The leading segment [results_1] is bucket A (the tags that are not
    excluded and whose [tag.name] starts with the query) sorted by display
    name and then, stably, by the length of the display name; so of two of its
    tags the one with the shorter display name stands first, and of two
    with display names of one length the one with the smaller display
    name stands first. *)
Theorem leading_segment_order (lb : Library) (excl : list Z)
    (query : option string) (tag_results : list Tag) :
  let r1 := results_1 lower lb excl query tag_results in
  r1 = list_sort (display_len lb)
         (list_sort (display_name lb)
            (filter (in_bucket_a lower excl query) tag_results))
  /\ forall i j a b,
       nth_error r1 i = Some a -> nth_error r1 j = Some b ->
       (display_len lb a < display_len lb b -> i < j)
       /\ (display_len lb a = display_len lb b ->
           String.ltb (display_name lb a) (display_name lb b) = true ->
           i < j).
Proof.
  intros r1. split; [apply results_1_filter|].
  assert (S : StronglySorted
                (key_le (both_keys (display_len lb) (display_name lb))) r1).
  { unfold r1. rewrite results_1_filter. unfold sort_two_pass.
    rewrite two_pass_sort. apply list_sort_sorted. }
  intros i j a b Hi Hj. split.
  - intros Hlen.
    apply (sorted_both_keys_before _ _ _ _ _ _ _ S Hi Hj).
    unfold both_keys. simpl.
    replace (display_len lb a =? display_len lb b) with false
      by (symmetry; apply Nat.eqb_neq; lia).
    now apply Nat.ltb_lt.
  - intros Hlen Hname.
    apply (sorted_both_keys_before _ _ _ _ _ _ _ S Hi Hj).
    unfold both_keys. simpl. now rewrite Hlen, Nat.eqb_refl.
Qed.

(** C5. For a non-empty query the ranked list is bucket A (the tags that
    are not excluded and whose lowered name starts with the lowered query,
    sorted by name and then by length) followed by bucket B (the other
    tags that are not excluded, sorted by name); so a tag that matches the
    prefix never stands after one that does not. *)
Theorem prefix_matches_lead (q : string) (self : TagSearchPanel) :
  q <> EmptyString ->
  let out := displayed (update_tags (Some q) self) in
  let tag_results := search_tags (lib self) (Some q) in
  out = sort_two_pass (lib self)
          (filter (fun t => not_excluded (exclude self) t
                            && name_starts_with lower q t) tag_results)
        ++ list_sort (display_name (lib self))
             (filter (fun t => not_excluded (exclude self) t
                               && negb (name_starts_with lower q t))
                     tag_results)
  /\ forall i j a b,
       nth_error out i = Some a -> nth_error out j = Some b ->
       name_starts_with lower q a = true ->
       name_starts_with lower q b = false ->
       i < j.
Proof.
  intros Hq out tag_results.
  assert (Eq : String.eqb q EmptyString = false)
    by now apply String.eqb_neq.
  assert (Ea : forall t, in_bucket_a lower (exclude self) (Some q) t
                         = not_excluded (exclude self) t
                           && name_starts_with lower q t).
  { intros t. unfold in_bucket_a, prefix_match. now rewrite Eq. }
  assert (Eb : forall t, in_bucket_b lower (exclude self) (Some q) t
                         = not_excluded (exclude self) t
                           && negb (name_starts_with lower q t)).
  { intros t. unfold in_bucket_b, prefix_match. now rewrite Eq. }
  assert (Eout : out = results_1 lower (lib self) (exclude self) (Some q)
                         tag_results
                       ++ results_2 lower (lib self) (exclude self) (Some q)
                            tag_results)
    by apply displayed_update_tags.
  split.
  - rewrite Eout, results_1_filter, results_2_filter.
    now rewrite (filter_ext _ _ Ea), (filter_ext _ _ Eb).
  - intros i j a b Hi Hj Ha Hb. rewrite Eout in Hi, Hj.
    destruct (Nat.lt_ge_cases j
                (List.length (results_1 lower (lib self) (exclude self) (Some q)
                           tag_results))) as [Hlt|Hge].
    + rewrite nth_error_app1 in Hj by exact Hlt.
      apply nth_error_In, In_results_1 in Hj. destruct Hj as [_ Hj].
      rewrite Ea, Hb, andb_false_r in Hj. discriminate.
    + destruct (Nat.lt_ge_cases i
                  (List.length (results_1 lower (lib self) (exclude self)
                             (Some q) tag_results))) as [Hlt'|Hge'];
        [lia|].
      rewrite nth_error_app2 in Hi by exact Hge'.
      apply nth_error_In, In_results_2 in Hi. destruct Hi as [_ Hi].
      rewrite Eb, Ha, andb_false_r in Hi. discriminate.
Qed.

(** C6. For an absent or empty query bucket A stays empty, and the ranked
    list is the tags the library finds, less the excluded ones, sorted by
    display name and by nothing else: it is ascending in the display name
    and a permutation of those tags. *)
Theorem empty_query_sorted_by_name (query : option string)
    (self : TagSearchPanel) :
  query = None \/ query = Some EmptyString ->
  let tag_results := search_tags (lib self) query in
  let out := displayed (update_tags query self) in
  fst (buckets lower (exclude self) query tag_results) = []
  /\ results_1 lower (lib self) (exclude self) query tag_results = []
  /\ out = list_sort (display_name (lib self))
             (filter (not_excluded (exclude self)) tag_results)
  /\ StronglySorted
       (fun a b => String.ltb (display_name (lib self) b)
                              (display_name (lib self) a) = false) out
  /\ Permutation out (filter (not_excluded (exclude self)) tag_results).
Proof.
  intros Hq tag_results out.
  assert (Ep : forall t, prefix_match lower query t = false)
    by (destruct Hq as [-> | ->]; reflexivity).
  assert (Ea : filter (in_bucket_a lower (exclude self) query) tag_results
               = []).
  { rewrite (filter_ext _ (fun _ => false)); [apply filter_false|].
    intros t. unfold in_bucket_a. now rewrite Ep, andb_false_r. }
  assert (Eb : filter (in_bucket_b lower (exclude self) query) tag_results
               = filter (not_excluded (exclude self)) tag_results).
  { apply filter_ext. intros t. unfold in_bucket_b.
    now rewrite Ep, andb_true_r. }
  assert (Eout : out = list_sort (display_name (lib self))
                         (filter (not_excluded (exclude self)) tag_results)).
  { unfold out. rewrite displayed_update_tags. unfold ranked.
    fold tag_results. now rewrite results_1_filter, results_2_filter, Ea, Eb. }
  repeat split.
  - now rewrite buckets_filter.
  - now rewrite results_1_filter, Ea.
  - exact Eout.
  - rewrite Eout.
    exact (list_sort_sorted (display_name (lib self)) _).
  - rewrite Eout. apply list_sort_perm.
Qed.

(** C7. When the library finds nothing, [update_tags] shows no tag, sets
    [first_tag_id] to [None] and puts the create-tag button, built for the
    query, in the layout; it does so on every panel and query. *)
Theorem no_match_create_button (query : option string)
    (self : TagSearchPanel) :
  search_tags (lib self) query = [] ->
  displayed (update_tags query self) = []
  /\ first_tag_id (update_tags query self) = None
  /\ scroll_layout (update_tags query self) = [CreateTagButton query].
Proof.
  intros E. unfold displayed, update_tags. rewrite E. simpl. auto.
Qed.

(** C9. The ranked list and [first_tag_id] that [update_tags] computes are
    functions of the query, the exclusion list, the tags the library finds
    and the display names alone: two runs that agree on these agree on
    both results, whatever else the two panels hold. *)
Theorem update_tags_deterministic (query : option string)
    (self1 self2 : TagSearchPanel) :
  exclude self1 = exclude self2 ->
  search_tags (lib self1) query = search_tags (lib self2) query ->
  (forall i, tag_display_name (lib self1) i
             = tag_display_name (lib self2) i) ->
  displayed (update_tags query self1) = displayed (update_tags query self2)
  /\ first_tag_id (update_tags query self1)
     = first_tag_id (update_tags query self2).
Proof.
  intros Hex Hs Hd.
  assert (E1 : results_1 lower (lib self1) (exclude self1) query
                 (search_tags (lib self1) query)
               = results_1 lower (lib self2) (exclude self2) query
                   (search_tags (lib self2) query)).
  { rewrite Hex, Hs. unfold results_1.
    rewrite (list_sort_ext (display_name (lib self1))
               (display_name (lib self2)))
      by (intros t; apply Hd).
    apply list_sort_ext. intros t. unfold display_len, display_name.
    now rewrite Hd. }
  assert (E2 : results_2 lower (lib self1) (exclude self1) query
                 (search_tags (lib self1) query)
               = results_2 lower (lib self2) (exclude self2) query
                   (search_tags (lib self2) query)).
  { rewrite Hex, Hs. unfold results_2.
    apply list_sort_ext. intros t. apply Hd. }
  split.
  - rewrite !displayed_update_tags. unfold ranked. now rewrite E1, E2.
  - rewrite !first_tag_id_update_tags. now rewrite E1, Hs.
Qed.

(** C10. On a confirmation with text, when a first match is set: the
    search field is cleared and the list is recomputed for the absent
    query, in either mode; [tag_chosen] is emitted, with the first match,
    when the panel is a tag chooser and not at all when it is not. *)
Theorem on_return_selects_only_in_chooser (text : string) (first : Z)
    (self : TagSearchPanel) :
  text <> EmptyString ->
  first_tag_id self = Some first ->
  let self' := on_return text self in
  search_field self' = EmptyString
  /\ displayed self' = ranked lower (lib self) (exclude self) None
  /\ first_tag_id self'
     = first_tag_id (update_tags None self)
  /\ emitted (effects self')
     = emitted (effects self)
       ++ (if is_tag_chooser self then [first] else []).
Proof.
  intros Ht Hf self'. unfold self', on_return.
  apply String.eqb_neq in Ht. rewrite Ht, Hf. simpl.
  destruct (update_tags_frame None
              (set_text EmptyString
                 (if is_tag_chooser self
                  then perform (TagChosenEmit first) self else self)))
    as (_ & _ & _ & Hs & He).
  rewrite Hs, He, displayed_update_tags, !first_tag_id_update_tags.
  destruct (is_tag_chooser self); simpl;
    rewrite ?emitted_app, ?app_nil_r; auto.
Qed.
End PanelTheory.

(** C8. One stable sort of a bucket by the compound key [(length of the
    display name, display name)] gives the list that the two stable sorts of
    the source give, first by display name and then by its length, for every
    list of tags and every library resolving the display names. *)
Theorem compound_key_sort_is_two_pass (lb : Library) (ts : list Tag) :
  sort_compound_key lb ts = sort_two_pass lb ts.
Proof.
  unfold sort_compound_key, sort_two_pass, compound_key.
  symmetry. apply two_pass_sort.
Qed.

(** ** The panel over the small library *)

(** C1. The query ["n"] with tag 1 excluded: the library finds all five
    tags, none starts with the query, the list shows tags 2, 5, 4 and 3, and
    [first_tag_id] is 1, the excluded tag, not the tag at the top. *)
Theorem first_tag_id_is_not_top_of_list :
  let self' := demo_update_tags (Some "n"%string) (demo_chooser [1%Z]) in
  map id (displayed self') = [2; 5; 4; 3]%Z
  /\ first_tag_id self' = Some 1%Z
  /\ first_tag_id self' <> option_map id (nth_error (displayed self') 0)
  /\ ~ In 1%Z (map id (displayed self')).
Proof.
  vm_compute. repeat split; try discriminate.
  intros H. repeat destruct H as [H|H]; try discriminate H. exact H.
Qed.

(** C2. The query ["n"] with all five tags excluded: the library finds
    them all, the list shows none, and [first_tag_id] is 1 and not [None]. *)
Theorem all_excluded_first_tag_id_is_set :
  let self := demo_chooser [1; 2; 3; 4; 5]%Z in
  let self' := demo_update_tags (Some "n"%string) self in
  search_tags (lib self) (Some "n"%string) <> []
  /\ (forall t, In t (search_tags (lib self) (Some "n"%string)) ->
                In (id t) (exclude self))
  /\ displayed self' = []
  /\ first_tag_id self' = Some 1%Z
  /\ first_tag_id self' <> None.
Proof.
  vm_compute. repeat split; try discriminate.
  intros t H.
  repeat (destruct H as [H|H]; [subst t; simpl; tauto|]).
  contradiction.
Qed.

(** The query ["an"] with tag 2 excluded: tag 1 is shown, and is not
    excluded. *)
Lemma excluded_never_displayed_witness :
  In tag_animal
     (displayed (demo_update_tags (Some "an"%string) (demo_chooser [2%Z])))
  /\ ~ In (id tag_animal) (exclude (demo_chooser [2%Z])).
Proof.
  assert (H : In tag_animal
                (displayed (demo_update_tags (Some "an"%string)
                              (demo_chooser [2%Z]))))
    by (vm_compute; auto).
  split; [exact H|].
  exact (excluded_never_displayed 0 1000 lower_ascii _ _ _ H).
Defined.

(** The query ["an"] over the five tags: the leading segment is An, Ana,
    Ant, Animal. *)
Lemma leading_segment_order_witness :
  let r1 := results_1 lower_ascii demo_lib [] (Some "an"%string) demo_tags in
  map id r1 = [2; 5; 4; 1]%Z
  /\ nth_error r1 1 = Some tag_ana /\ nth_error r1 2 = Some tag_ant
  /\ display_len demo_lib tag_ana = display_len demo_lib tag_ant
  /\ String.ltb (display_name demo_lib tag_ana) (display_name demo_lib tag_ant)
     = true
  /\ 1 < 2
  /\ nth_error r1 3 = Some tag_animal
  /\ display_len demo_lib tag_ant < display_len demo_lib tag_animal
  /\ 2 < 3.
Proof.
  intros r1.
  assert (H1 : nth_error r1 1 = Some tag_ana) by reflexivity.
  assert (H2 : nth_error r1 2 = Some tag_ant) by reflexivity.
  assert (H3 : nth_error r1 3 = Some tag_animal) by reflexivity.
  assert (Hlen : display_len demo_lib tag_ana = display_len demo_lib tag_ant)
    by reflexivity.
  assert (Hlt : String.ltb (display_name demo_lib tag_ana)
                  (display_name demo_lib tag_ant) = true) by reflexivity.
  assert (Hsh : display_len demo_lib tag_ant < display_len demo_lib tag_animal)
    by (vm_compute; lia).
  destruct (leading_segment_order lower_ascii demo_lib [] (Some "an"%string)
              demo_tags) as [_ Hord].
  repeat split; try assumption.
  - exact (proj2 (Hord 1 2 tag_ana tag_ant H1 H2) Hlen Hlt).
  - exact (proj1 (Hord 2 3 tag_ant tag_animal H2 H3) Hsh).
Defined.

(** The query ["an"] with tag 5 excluded: Animal, a prefix match, stands
    before Banana, which is none. *)
Lemma prefix_matches_lead_witness :
  let out := displayed (demo_update_tags (Some "an"%string)
                          (demo_chooser [5%Z])) in
  "an"%string <> EmptyString
  /\ map id out = [2; 4; 1; 3]%Z
  /\ nth_error out 2 = Some tag_animal /\ nth_error out 3 = Some tag_banana
  /\ name_starts_with lower_ascii "an" tag_animal = true
  /\ name_starts_with lower_ascii "an" tag_banana = false
  /\ 2 < 3.
Proof.
  intros out.
  assert (Hq : "an"%string <> EmptyString) by discriminate.
  assert (H2 : nth_error out 2 = Some tag_animal) by reflexivity.
  assert (H3 : nth_error out 3 = Some tag_banana) by reflexivity.
  assert (Ha : name_starts_with lower_ascii "an" tag_animal = true)
    by reflexivity.
  assert (Hb : name_starts_with lower_ascii "an" tag_banana = false)
    by reflexivity.
  destruct (prefix_matches_lead 0 1000 lower_ascii "an" (demo_chooser [5%Z]) Hq)
    as [_ Hord].
  repeat split; try assumption.
  exact (Hord 2 3 tag_animal tag_banana H2 H3 Ha Hb).
Defined.

(** The absent query with tag 1 excluded: the other four tags, by name. *)
Lemma empty_query_sorted_by_name_witness :
  let self := demo_chooser [1%Z] in
  let out := displayed (demo_update_tags None self) in
  (@None string = None \/ @None string = Some EmptyString)
  /\ map id out = [2; 5; 4; 3]%Z
  /\ out = list_sort (display_name demo_lib)
             (filter (not_excluded [1%Z]) demo_tags)
  /\ Permutation out (filter (not_excluded [1%Z]) demo_tags).
Proof.
  intros self out.
  assert (Hq : @None string = None \/ @None string = Some EmptyString)
    by (left; reflexivity).
  destruct (empty_query_sorted_by_name 0 1000 lower_ascii None self Hq)
    as (_ & _ & Hout & _ & Hperm).
  split; [exact Hq|]. split; [reflexivity|].
  split; [exact Hout | exact Hperm].
Defined.

(** The query ["xyz"], which the library does not find. *)
Lemma no_match_create_button_witness :
  let self' := demo_update_tags (Some "xyz"%string) (demo_chooser []) in
  search_tags demo_lib (Some "xyz"%string) = []
  /\ displayed self' = []
  /\ first_tag_id self' = None
  /\ scroll_layout self' = [CreateTagButton (Some "xyz"%string)].
Proof.
  intros self'.
  assert (Hs : search_tags (lib (demo_chooser [])) (Some "xyz"%string) = [])
    by reflexivity.
  split; [exact Hs|].
  exact (no_match_create_button 0 1000 lower_ascii _ (demo_chooser []) Hs).
Defined.

(** A fresh chooser and a used panel that is no chooser, with one exclusion
    list, rank the query ["an"] alike. *)
Lemma update_tags_deterministic_witness :
  let self1 := demo_chooser [1%Z] in
  let self2 := demo_manager [1%Z] in
  exclude self1 = exclude self2
  /\ scroll_layout self1 <> scroll_layout self2
  /\ displayed (demo_update_tags (Some "an"%string) self1)
     = displayed (demo_update_tags (Some "an"%string) self2)
  /\ first_tag_id (demo_update_tags (Some "an"%string) self1)
     = first_tag_id (demo_update_tags (Some "an"%string) self2).
Proof.
  intros self1 self2.
  split; [reflexivity|]. split; [discriminate|].
  exact (update_tags_deterministic 0 1000 lower_ascii (Some "an"%string)
           self1 self2 eq_refl eq_refl (fun _ => eq_refl)).
Defined.

(** Return pressed on ["an"] in a panel that is no chooser: nothing is
    emitted, the field is cleared, the list is that of the absent query. *)
Lemma on_return_selects_only_in_chooser_witness :
  let self := demo_update_tags (Some "an"%string) (demo_manager [1%Z]) in
  let self' := demo_on_return "an" self in
  "an"%string <> EmptyString
  /\ first_tag_id self = Some 2%Z
  /\ is_tag_chooser self = false
  /\ search_field self' = EmptyString
  /\ map id (displayed self') = [2; 5; 4; 3]%Z
  /\ emitted (effects self') = emitted (effects self).
Proof.
  intros self self'.
  assert (Ht : "an"%string <> EmptyString) by discriminate.
  assert (Hf : first_tag_id self = Some 2%Z) by reflexivity.
  destruct (on_return_selects_only_in_chooser 0 1000 lower_ascii "an" 2%Z
              self Ht Hf) as (Hs & Hd & _ & He).
  split; [exact Ht|]. split; [exact Hf|]. split; [reflexivity|].
  split; [exact Hs|].
  split; [unfold self', demo_on_return; rewrite Hd; reflexivity|].
  unfold self', demo_on_return. rewrite He. apply app_nil_r.
Defined.


(** ** More on [update_tags] *)

Lemma filter_split_perm {A : Type} (p q : A -> bool) (l : list A) :
  Permutation (filter (fun t => p t && q t) l
               ++ filter (fun t => p t && negb (q t)) l)
              (filter p l).
Proof.
  induction l as [|x l IH]; simpl; [constructor|].
  destruct (p x); simpl; [|exact IH].
  destruct (q x); simpl.
  - now apply perm_skip.
  - apply Permutation_sym. eapply Permutation_trans;
      [|apply Permutation_middle].
    apply perm_skip. now apply Permutation_sym.
Qed.

Lemma with_key_app {A K : Type} `{KeyOps K} (key : A -> K) (k : K)
    (l1 l2 : list A) :
  with_key key k (l1 ++ l2) = with_key key k l1 ++ with_key key k l2.
Proof. unfold with_key. apply filter_app. Qed.

Section DependentKeys.
Context {A K1 K2 : Type} `{KeyLaws K1} `{KeyLaws K2}.
Variables (key1 : A -> K1) (key2 : A -> K2) (f : K2 -> K1).
Hypothesis key1_of_key2 : forall x, key1 x = f (key2 x).

Lemma with_key_refine (k : K2) (l : list A) :
  with_key key2 k (with_key key1 (f k) l) = with_key key2 k l.
Proof.
  induction l as [|x l IH]; simpl; [reflexivity|].
  fold (with_key key1 (f k) l). fold (with_key key2 k l).
  destruct (keqb (key2 x) k) eqn:E2.
  - apply keqb_eq in E2. subst k.
    rewrite <- key1_of_key2, keqb_refl. simpl. rewrite keqb_refl.
    f_equal. rewrite <- key1_of_key2 in IH. exact IH.
  - destruct (keqb (key1 x) (f k)); simpl; rewrite ?E2; exact IH.
Qed.

(** When the first key is a function of the second, the two sorts leave the
    elements of one second key in the order they had. *)
Lemma with_key_two_pass (k : K2) (l : list A) :
  with_key key2 k (list_sort key1 (list_sort key2 l)) = with_key key2 k l.
Proof.
  rewrite <- with_key_refine, with_key_list_sort, with_key_refine.
  apply with_key_list_sort.
Qed.
End DependentKeys.

Section UpdateTagsFacts.
Variables RESERVED_TAG_START RESERVED_TAG_END : Z.
Variable lower : string -> string.

Local Abbreviation update_tags :=
  (update_tags RESERVED_TAG_START RESERVED_TAG_END lower).
Local Abbreviation build_row :=
  (build_row_item_widget RESERVED_TAG_START RESERVED_TAG_END).

Lemma ranked_In (lb : Library) (excl : list Z) (query : option string)
    (t : Tag) :
  In t (ranked lower lb excl query)
  <-> In t (search_tags lb query) /\ not_excluded excl t = true.
Proof.
  unfold ranked. rewrite in_app_iff, In_results_1, In_results_2.
  unfold in_bucket_a, in_bucket_b.
  destruct (not_excluded excl t), (prefix_match lower query t); simpl;
    intuition discriminate.
Qed.

Lemma scroll_layout_update_tags (query : option string)
    (self : TagSearchPanel) :
  scroll_layout (update_tags query self)
  = match search_tags (lib self) query with
    | [] => [CreateTagButton query]
    | _ :: _ => map (build_row (is_tag_chooser self))
                    (ranked lower (lib self) (exclude self) query)
    end.
Proof.
  unfold update_tags, ranked.
  destruct (search_tags (lib self) query); reflexivity.
Qed.

(** X1. The list that [update_tags] shows is a permutation of the tags the
    library found that are not excluded: none is lost, none is shown
    twice over. *)
Theorem displayed_permutation (query : option string)
    (self : TagSearchPanel) :
  Permutation (displayed (update_tags query self))
              (filter (not_excluded (exclude self))
                      (search_tags (lib self) query)).
Proof.
  rewrite displayed_update_tags. unfold ranked.
  rewrite results_1_filter, results_2_filter. unfold sort_two_pass.
  rewrite !list_sort_perm.
  apply (filter_split_perm (not_excluded (exclude self))
           (prefix_match lower query)).
Qed.

(** X2. Tags with one display name keep, inside the leading segment and
    inside the trailing one, the order the library gave them. *)
Theorem ties_keep_search_order (query : option string)
    (self : TagSearchPanel) (k : string) :
  let tag_results := search_tags (lib self) query in
  with_key (display_name (lib self)) k (displayed (update_tags query self))
  = with_key (display_name (lib self)) k
      (filter (in_bucket_a lower (exclude self) query) tag_results)
    ++ with_key (display_name (lib self)) k
         (filter (in_bucket_b lower (exclude self) query) tag_results).
Proof.
  intros tag_results. rewrite displayed_update_tags. unfold ranked.
  fold tag_results. rewrite with_key_app, results_1_filter, results_2_filter.
  unfold sort_two_pass. f_equal.
  - apply (with_key_two_pass (display_len (lib self))
             (display_name (lib self)) String.length).
    reflexivity.
  - apply with_key_list_sort.
Qed.

(** The first match that [update_tags] sets is a tag the library found. *)
Lemma first_tag_id_found (query : option string) (self : TagSearchPanel)
    (i : Z) :
  first_tag_id (update_tags query self) = Some i ->
  exists t, In t (search_tags (lib self) query) /\ id t = i.
Proof.
  rewrite first_tag_id_update_tags.
  destruct (search_tags (lib self) query) as [|tag0 l] eqn:Es;
    [discriminate|].
  destruct (results_1 lower (lib self) (exclude self) query (tag0 :: l))
    as [|t r] eqn:E1; intros Hi; injection Hi as <-.
  - exists tag0. split; [now left | reflexivity].
  - exists t. split; [|reflexivity].
    assert (Hin : In t (results_1 lower (lib self) (exclude self) query
                          (tag0 :: l))) by (rewrite E1; now left).
    apply In_results_1 in Hin. tauto.
Qed.

(** X3. [first_tag_id] is [None] after [update_tags] exactly when the library
    found nothing; otherwise it is the identifier of a tag the library
    found. *)
Theorem first_tag_id_none_iff (query : option string)
    (self : TagSearchPanel) :
  (first_tag_id (update_tags query self) = None
   <-> search_tags (lib self) query = [])
  /\ forall i, first_tag_id (update_tags query self) = Some i ->
               exists t, In t (search_tags (lib self) query) /\ id t = i.
Proof.
  split; [|apply first_tag_id_found].
  rewrite first_tag_id_update_tags.
  destruct (search_tags (lib self) query) as [|tag0 l]; [tauto|].
  destruct (results_1 lower (lib self) (exclude self) query (tag0 :: l));
    split; discriminate.
Qed.

(** The tag at the top of the list when bucket A is not empty. *)
Lemma best_prefix_match (query : option string)
    (self : TagSearchPanel) (t : Tag) :
  In t (search_tags (lib self) query) ->
  in_bucket_a lower (exclude self) query t = true ->
  exists top,
    nth_error (displayed (update_tags query self)) 0 = Some top
    /\ first_tag_id (update_tags query self) = Some (id top)
    /\ In top (search_tags (lib self) query)
    /\ in_bucket_a lower (exclude self) query top = true
    /\ display_len (lib self) top <= display_len (lib self) t
    /\ (display_len (lib self) t = display_len (lib self) top ->
        String.ltb (display_name (lib self) t) (display_name (lib self) top)
        = false).
Proof.
  intros Hin Ha.
  assert (Ht : In t (results_1 lower (lib self) (exclude self) query
                       (search_tags (lib self) query)))
    by (apply In_results_1; auto).
  assert (S : StronglySorted
                (key_le (both_keys (display_len (lib self))
                                   (display_name (lib self))))
                (results_1 lower (lib self) (exclude self) query
                   (search_tags (lib self) query))).
  { rewrite results_1_filter. unfold sort_two_pass.
    rewrite two_pass_sort. apply list_sort_sorted. }
  destruct (results_1 lower (lib self) (exclude self) query
              (search_tags (lib self) query)) as [|top r] eqn:E1;
    [contradiction|].
  destruct (first_tag_id_of_prefix_match RESERVED_TAG_START RESERVED_TAG_END
              lower query self top r E1) as [Hf Hn].
  assert (Htop : In top (results_1 lower (lib self) (exclude self) query
                           (search_tags (lib self) query)))
    by (rewrite E1; now left).
  apply In_results_1 in Htop. destruct Htop as [Htop1 Htop2].
  exists top. repeat split; try assumption.
  - apply StronglySorted_inv in S. destruct S as [_ S].
    rewrite Forall_forall in S.
    destruct Ht as [<-|Ht]; [lia|].
    specialize (S _ Ht). unfold key_le, both_keys in S. simpl in S.
    destruct (display_len (lib self) t =? display_len (lib self) top) eqn:E.
    + apply Nat.eqb_eq in E. lia.
    + apply Nat.ltb_ge in S. exact S.
  - intros Hlen. apply StronglySorted_inv in S. destruct S as [_ S].
    rewrite Forall_forall in S.
    destruct Ht as [<-|Ht];
      [exact (klt_irrefl (display_name (lib self) top))|].
    specialize (S _ Ht). unfold key_le, both_keys in S. simpl in S.
    rewrite Hlen, Nat.eqb_refl in S. exact S.
Qed.

(** X4. When some tag that is not excluded matches the prefix, the tag at
    the top of the list is such a tag, [first_tag_id] is its identifier, and
    no such tag has a shorter display name, or one of the same length that
    is smaller. *)
Theorem first_tag_id_best_prefix_match (query : option string)
    (self : TagSearchPanel) (t : Tag) :
  In t (search_tags (lib self) query) ->
  in_bucket_a lower (exclude self) query t = true ->
  exists top,
    nth_error (displayed (update_tags query self)) 0 = Some top
    /\ first_tag_id (update_tags query self) = Some (id top)
    /\ In top (search_tags (lib self) query)
    /\ in_bucket_a lower (exclude self) query top = true
    /\ display_len (lib self) top <= display_len (lib self) t
    /\ (display_len (lib self) t = display_len (lib self) top ->
        String.ltb (display_name (lib self) t) (display_name (lib self) top)
        = false).
Proof. apply best_prefix_match. Qed.

(** A row of the layout carries a tag the library found for the query, not
    excluded, and an add button in a chooser only. *)
Lemma layout_row (query : option string) (self : TagSearchPanel)
    (t : Tag) (r a : bool) :
  In (RowItem t r a) (scroll_layout (update_tags query self)) ->
  a = is_tag_chooser self
  /\ In t (search_tags (lib self) query)
  /\ not_excluded (exclude self) t = true.
Proof.
  rewrite scroll_layout_update_tags.
  destruct (search_tags (lib self) query) eqn:Es.
  - intros [H|[]]. discriminate.
  - rewrite in_map_iff. intros [u [Hu Hin]].
    unfold build_row_item_widget in Hu. injection Hu as -> _ <-.
    apply ranked_In in Hin. rewrite Es in Hin. tauto.
Qed.

(** X5. Every row of the layout has an add button exactly when the panel is
    a tag chooser, and a remove button exactly when it is not one and the
    identifier of its tag is outside the reserved range; so no row of a
    reserved tag can be removed. *)
Theorem row_buttons (query : option string) (self : TagSearchPanel)
    (t : Tag) (has_remove add_button : bool) :
  In (RowItem t has_remove add_button)
     (scroll_layout (update_tags query self)) ->
  add_button = is_tag_chooser self
  /\ (has_remove = true
      <-> is_tag_chooser self = false
          /\ ~ (RESERVED_TAG_START <= id t < RESERVED_TAG_END)%Z).
Proof.
  rewrite scroll_layout_update_tags.
  destruct (search_tags (lib self) query).
  - intros [H|[]]. discriminate.
  - rewrite in_map_iff. intros [u [Hu _]].
    unfold build_row_item_widget in Hu. injection Hu as -> <- <-.
    split; [reflexivity|].
    destruct (is_tag_chooser self); simpl.
    + split; [discriminate | intros [H _]; discriminate].
    + rewrite negb_true_iff, andb_false_iff, Z.leb_gt, Z.ltb_ge.
      split; [intros H; split; [reflexivity | lia] | intros [_ H]; lia].
Qed.

(** X6. The create-tag button is in the layout exactly when the library
    found nothing, and it is then built for the query; when every tag found
    is excluded the layout is empty, without rows and without the
    button. *)
Theorem create_button_iff_nothing_found (query : option string)
    (self : TagSearchPanel) :
  (forall q', In (CreateTagButton q') (scroll_layout (update_tags query self))
              <-> search_tags (lib self) query = [] /\ q' = query)
  /\ (search_tags (lib self) query <> [] ->
      (forall t, In t (search_tags (lib self) query) ->
                 In (id t) (exclude self)) ->
      scroll_layout (update_tags query self) = []).
Proof.
  rewrite scroll_layout_update_tags. split.
  - intros q'. destruct (search_tags (lib self) query) as [|tag0 l].
    + simpl. split.
      * intros [H|[]]. injection H as <-. auto.
      * intros [_ ->]. now left.
    + split; [|intros [H _]; discriminate].
      rewrite in_map_iff. intros [u [Hu _]]. discriminate.
  - intros Hne Hall.
    destruct (search_tags (lib self) query) as [|tag0 l] eqn:Es;
      [contradiction|].
    assert (E : ranked lower (lib self) (exclude self) query = []).
    { destruct (ranked lower (lib self) (exclude self) query) as [|u r] eqn:Er;
        [reflexivity|].
      assert (Hu : In u (ranked lower (lib self) (exclude self) query))
        by (rewrite Er; now left).
      apply ranked_In in Hu. destruct Hu as [Hu1 Hu2].
      rewrite Es in Hu1. apply Hall, in_list_In in Hu1.
      unfold not_excluded in Hu2. rewrite Hu1 in Hu2. discriminate. }
    now rewrite E.
Qed.
End UpdateTagsFacts.

(** ** The slots *)

Section SlotsTheory.
Variables RESERVED_TAG_START RESERVED_TAG_END : Z.
Variable lower : string -> string.

Local Abbreviation update_tags :=
  (update_tags RESERVED_TAG_START RESERVED_TAG_END lower).
Local Abbreviation on_return :=
  (on_return RESERVED_TAG_START RESERVED_TAG_END lower).
Local Abbreviation showEvent :=
  (showEvent RESERVED_TAG_START RESERVED_TAG_END lower).
Local Abbreviation text_edited :=
  (text_edited RESERVED_TAG_START RESERVED_TAG_END lower).
Local Abbreviation return_pressed :=
  (return_pressed RESERVED_TAG_START RESERVED_TAG_END lower).
Local Abbreviation handle :=
  (handle RESERVED_TAG_START RESERVED_TAG_END lower).
Local Abbreviation run := (run RESERVED_TAG_START RESERVED_TAG_END lower).

(** X7. The list is built by the first show event only: a second show event
    leaves the panel as the first one left it, and after a show event the
    panel is initialized. *)
Theorem showEvent_once (self : TagSearchPanel) :
  is_initialized (showEvent self) = true
  /\ showEvent (showEvent self) = showEvent self.
Proof.
  assert (E : is_initialized (showEvent self) = true).
  { unfold showEvent. destruct (is_initialized self) eqn:Ei; simpl; auto. }
  split; [exact E|].
  unfold showEvent at 1. now rewrite E.
Qed.

(** X8. A panel that has just been built shows, on its first show event, the
    tags the library returns for the absent query, less the excluded ones,
    sorted by display name; built without an exclusion list, or with an
    empty one, it shows them all. *)
Theorem first_show_lists_all (lb : Library) (excl : option (list Z))
    (chooser : option bool) :
  let self := showEvent (init lb excl chooser) in
  displayed self
  = list_sort (display_name lb)
      (filter (not_excluded (match excl with Some l => l | None => [] end))
              (search_tags lb None))
  /\ (excl = None \/ excl = Some [] ->
      displayed self = list_sort (display_name lb) (search_tags lb None)).
Proof.
  assert (E : forall ex,
            displayed (showEvent (init lb ex chooser))
            = list_sort (display_name lb)
                (filter (not_excluded
                           (match ex with Some l => l | None => [] end))
                        (search_tags lb None))).
  { intros ex. unfold showEvent. simpl. unfold displayed. simpl.
    fold (displayed (update_tags None (init lb ex chooser))).
    rewrite displayed_update_tags. unfold ranked. simpl.
    rewrite results_1_filter, results_2_filter.
    rewrite (filter_ext (in_bucket_a lower _ None) (fun _ => false))
      by (intros t; unfold in_bucket_a; simpl; apply andb_false_r).
    rewrite filter_false. simpl.
    f_equal. apply filter_ext. intros t. unfold in_bucket_b. simpl.
    apply andb_true_r. }
  split; [apply E|].
  intros [-> | ->]; rewrite E; simpl;
    (rewrite (filter_ext _ (fun _ => true)) by reflexivity);
    now rewrite filter_true.
Qed.

(** X9. Whatever the text and the panel, [on_return] emits [tag_chosen] at
    most once, and then with the first match the panel held: it does so
    exactly when the text is not empty, a first match is set and the panel
    is a tag chooser. *)
Theorem on_return_emits (text : string) (self : TagSearchPanel) :
  emitted (effects (on_return text self))
  = emitted (effects self)
    ++ match first_tag_id self with
       | Some first =>
           if negb (String.eqb text EmptyString) && is_tag_chooser self
           then [first] else []
       | None => []
       end.
Proof.
  unfold on_return.
  destruct (String.eqb text EmptyString) eqn:Et; simpl.
  - rewrite !emitted_app. simpl.
    destruct (first_tag_id self); now rewrite !app_nil_r.
  - destruct (first_tag_id self) as [first|].
    + destruct (update_tags_frame RESERVED_TAG_START RESERVED_TAG_END lower
                  None
                  (set_text EmptyString
                     (if is_tag_chooser self
                      then perform (TagChosenEmit first) self else self)))
        as (_ & _ & _ & _ & He).
      rewrite He. destruct (is_tag_chooser self); simpl;
        rewrite ?emitted_app, ?app_nil_r; reflexivity.
    + simpl. rewrite emitted_app. reflexivity.
Qed.

Lemma text_edited_frame (text : string) (self : TagSearchPanel) :
  search_field (text_edited text self) = text
  /\ is_tag_chooser (text_edited text self) = is_tag_chooser self
  /\ lib (text_edited text self) = lib self
  /\ exclude (text_edited text self) = exclude self
  /\ emitted (effects (text_edited text self)) = emitted (effects self)
  /\ effects (text_edited text self) = effects self ++ [SearchFieldSetFocus].
Proof.
  unfold text_edited.
  destruct (update_tags_frame RESERVED_TAG_START RESERVED_TAG_END lower
              (Some text) (set_text text self)) as (Hl & He & Hc & Hs & Hm).
  repeat split; try assumption.
  unfold update_tags.
  destruct (search_tags (lib (set_text text self)) (Some text)); reflexivity.
Qed.

(** X10. Typing a text for which the library finds nothing and pressing
    return asks for the creation of a tag of exactly that name: nothing is
    emitted, the text stays in the field, and the layout keeps the create
    button alone. *)
Theorem return_on_unknown_name_creates (text : string)
    (self : TagSearchPanel) :
  text <> EmptyString ->
  search_tags (lib self) (Some text) = [] ->
  let self' := return_pressed (text_edited text self) in
  effects self' = effects self ++ [SearchFieldSetFocus; CreateAndAddTag text]
  /\ emitted (effects self') = emitted (effects self)
  /\ search_field self' = text
  /\ scroll_layout self' = [CreateTagButton (Some text)].
Proof.
  intros Ht Es self'.
  destruct (text_edited_frame text self) as (Hs & _ & _ & _ & Hm & He).
  assert (Hf : first_tag_id (text_edited text self) = None).
  { unfold text_edited. rewrite first_tag_id_update_tags. simpl.
    now rewrite Es. }
  assert (Hl : scroll_layout (text_edited text self)
               = [CreateTagButton (Some text)]).
  { unfold text_edited. rewrite scroll_layout_update_tags. simpl.
    now rewrite Es. }
  assert (E : self' = perform (CreateAndAddTag text) (text_edited text self)).
  { unfold self', return_pressed, on_return.
    fold (text_edited text self). rewrite Hs, Hf.
    apply String.eqb_neq in Ht. now rewrite Ht. }
  rewrite E. simpl. repeat split.
  - rewrite He, <- app_assoc. reflexivity.
  - rewrite emitted_app, Hm. apply app_nil_r.
  - exact Hs.
  - exact Hl.
Qed.

(** X11. In a tag chooser, typing a text that some tag which is not excluded
    starts with (case apart) and pressing return emits one identifier: that
    of a tag which is not excluded, starts with the text and has a display
    name no longer than that of any such tag. The field is then cleared
    and the list is that of the absent query. *)
Theorem return_selects_best_prefix_match (text : string)
    (self : TagSearchPanel) (t : Tag) :
  text <> EmptyString ->
  is_tag_chooser self = true ->
  In t (search_tags (lib self) (Some text)) ->
  not_excluded (exclude self) t = true ->
  name_starts_with lower text t = true ->
  let self' := return_pressed (text_edited text self) in
  exists top,
    emitted (effects self') = emitted (effects self) ++ [id top]
    /\ In top (search_tags (lib self) (Some text))
    /\ not_excluded (exclude self) top = true
    /\ name_starts_with lower text top = true
    /\ display_len (lib self) top <= display_len (lib self) t
    /\ search_field self' = EmptyString
    /\ displayed self' = ranked lower (lib self) (exclude self) None.
Proof.
  intros Ht Hc Hin Hex Hpre self'.
  assert (Et : String.eqb text EmptyString = false)
    by now apply String.eqb_neq.
  assert (Ha : in_bucket_a lower (exclude (set_text text self)) (Some text) t
               = true).
  { unfold in_bucket_a, prefix_match. simpl. now rewrite Hex, Et, Hpre. }
  destruct (best_prefix_match RESERVED_TAG_START RESERVED_TAG_END lower
              (Some text) (set_text text self) t Hin Ha)
    as (top & _ & Hf & Htop & Hatop & Hlen & _).
  fold (text_edited text self) in Hf. simpl in Htop, Hatop, Hlen.
  destruct (text_edited_frame text self) as (Hs & Hch & Hlb & Hexc & Hm & _).
  exists top.
  unfold in_bucket_a, prefix_match in Hatop. rewrite Et in Hatop.
  simpl in Hatop. apply andb_true_iff in Hatop. destruct Hatop as [H1 H2].
  assert (E : self' = update_tags None
                        (set_text EmptyString
                           (perform (TagChosenEmit (id top))
                              (text_edited text self)))).
  { unfold self', return_pressed, on_return.
    fold (text_edited text self). now rewrite Hs, Hf, Et, Hch, Hc. }
  destruct (update_tags_frame RESERVED_TAG_START RESERVED_TAG_END lower None
              (set_text EmptyString
                 (perform (TagChosenEmit (id top)) (text_edited text self))))
    as (_ & _ & _ & Hs' & He').
  repeat split; try assumption.
  - rewrite E, He'. simpl. now rewrite emitted_app, Hm.
  - rewrite E, Hs'. reflexivity.
  - rewrite E, displayed_update_tags. simpl. now rewrite Hlb, Hexc.
Qed.

(** X12. A selection by return is made once: when return has selected the
    first match, a second return, with nothing typed in between, only gives
    the focus back and hides the parent. *)
Theorem second_return_dismisses (first : Z) (self : TagSearchPanel) :
  search_field self <> EmptyString ->
  first_tag_id self = Some first ->
  let self1 := return_pressed self in
  return_pressed self1
  = perform ParentWidgetHide (perform SearchFieldSetFocus self1)
  /\ emitted (effects (return_pressed self1)) = emitted (effects self1).
Proof.
  intros Ht Hf self1.
  assert (Hs : search_field self1 = EmptyString).
  { unfold self1, return_pressed, on_return.
    apply String.eqb_neq in Ht. rewrite Ht, Hf. simpl.
    destruct (update_tags_frame RESERVED_TAG_START RESERVED_TAG_END lower None
                (set_text EmptyString
                   (if is_tag_chooser self
                    then perform (TagChosenEmit first) self else self)))
      as (_ & _ & _ & Hs & _).
    exact Hs. }
  assert (E : return_pressed self1
              = perform ParentWidgetHide (perform SearchFieldSetFocus self1)).
  { unfold return_pressed at 1, on_return.
    now rewrite Hs. }
  split; [exact E|].
  rewrite E. simpl. rewrite !emitted_app. simpl. now rewrite !app_nil_r.
Qed.
End SlotsTheory.

(** ** What every run of events keeps *)

Lemma layout_tags_In (t : Tag) (ws : list Widget) :
  In t (layout_tags ws) <-> exists r a, In (RowItem t r a) ws.
Proof.
  unfold layout_tags. rewrite in_flat_map. split.
  - intros [w [Hw Ht]]. destruct w as [u r a|q]; [|contradiction].
    destruct Ht as [->|[]]. eauto.
  - intros (r & a & H). exists (RowItem t r a). split; [exact H | now left].
Qed.

Lemma emitted_quiet (e : Effect) (es : list Effect) :
  (forall i, e <> TagChosenEmit i) -> emitted (es ++ [e]) = emitted es.
Proof.
  intros He. rewrite emitted_app. destruct e; simpl;
    try apply app_nil_r. now destruct (He tag_id).
Qed.

Section RunInvariant.
Variables RESERVED_TAG_START RESERVED_TAG_END : Z.
Variable lower : string -> string.
Variables (lb : Library) (excl : list Z) (chooser : bool).

Local Abbreviation update_tags :=
  (update_tags RESERVED_TAG_START RESERVED_TAG_END lower).
Local Abbreviation on_return :=
  (on_return RESERVED_TAG_START RESERVED_TAG_END lower).
Local Abbreviation showEvent :=
  (showEvent RESERVED_TAG_START RESERVED_TAG_END lower).
Local Abbreviation handle :=
  (handle RESERVED_TAG_START RESERVED_TAG_END lower).
Local Abbreviation run := (run RESERVED_TAG_START RESERVED_TAG_END lower).
Local Abbreviation inv := (panel_inv lb excl chooser).

Lemma inv_update_tags (query : option string) (self : TagSearchPanel) :
  inv self -> inv (update_tags query self).
Proof.
  intros (Hl & He & Hc & _ & _ & Hm).
  destruct (update_tags_frame RESERVED_TAG_START RESERVED_TAG_END lower
              query self) as (Fl & Fe & Fc & _ & Fm).
  unfold panel_inv. rewrite Fl, Fe, Fc, Fm.
  split; [exact Hl|]. split; [exact He|]. split; [exact Hc|].
  split; [|split; [|exact Hm]].
  - intros t r a H. apply layout_row in H. destruct H as (Ha & Hin & Hne).
    split; [congruence|]. split; [now rewrite <- He|].
    exists query. now rewrite <- Hl.
  - intros i Hi. apply first_tag_id_found in Hi.
    destruct Hi as (t & Ht & <-). exists t. split; [|reflexivity].
    exists query. now rewrite <- Hl.
Qed.

Lemma inv_set_text (text : string) (self : TagSearchPanel) :
  inv self -> inv (set_text text self).
Proof. intros H. exact H. Qed.

Lemma inv_perform_quiet (e : Effect) (self : TagSearchPanel) :
  (forall i, e <> TagChosenEmit i) -> inv self -> inv (perform e self).
Proof.
  intros He (Hl & Hx & Hc & Hr & Hf & Hm).
  unfold panel_inv. simpl. rewrite (emitted_quiet e _ He).
  split; [exact Hl|]. split; [exact Hx|]. split; [exact Hc|].
  split; [exact Hr|]. split; [exact Hf | exact Hm].
Qed.

Lemma inv_perform_emit (i : Z) (self : TagSearchPanel) :
  chooser = true -> (exists t, found_by lb t /\ id t = i) ->
  inv self -> inv (perform (TagChosenEmit i) self).
Proof.
  intros Hch Hi (Hl & Hx & Hc & Hr & Hf & Hm).
  unfold panel_inv. simpl. rewrite emitted_app. simpl.
  split; [exact Hl|]. split; [exact Hx|]. split; [exact Hc|].
  split; [exact Hr|]. split; [exact Hf|].
  intros j Hj. apply in_app_or in Hj. destruct Hj as [Hj|[<-|[]]].
  - exact (Hm _ Hj).
  - split; [exact Hch | exact Hi].
Qed.

Lemma inv_on_return (text : string) (self : TagSearchPanel) :
  inv self -> inv (on_return text self).
Proof.
  intros Hinv. unfold on_return.
  destruct (negb (String.eqb text EmptyString)).
  - destruct (first_tag_id self) as [first|] eqn:Ef.
    + apply inv_update_tags, inv_set_text.
      destruct (is_tag_chooser self) eqn:Ec; [|exact Hinv].
      apply inv_perform_emit; [| |exact Hinv].
      * destruct Hinv as (_ & _ & Hc & _). congruence.
      * destruct Hinv as (_ & _ & _ & _ & Hf & _). now apply Hf.
    + apply inv_perform_quiet; [discriminate | exact Hinv].
  - apply inv_perform_quiet; [discriminate|].
    apply inv_perform_quiet; [discriminate | exact Hinv].
Qed.

Lemma inv_add_clicked (row : nat) (self : TagSearchPanel) :
  inv self -> inv (add_clicked row self).
Proof.
  intros Hinv. unfold add_clicked.
  destruct (nth_error (scroll_layout self) row) as [w|] eqn:En;
    [|exact Hinv].
  destruct w as [t r a|q]; [|exact Hinv].
  destruct a; [|exact Hinv].
  apply nth_error_In in En.
  destruct Hinv as (Hl & Hx & Hc & Hr & Hf & Hm).
  destruct (Hr _ _ _ En) as (Ha & _ & Hfound).
  apply inv_perform_emit; [congruence | eauto |].
  split; [exact Hl|]. split; [exact Hx|]. split; [exact Hc|].
  split; [exact Hr|]. split; [exact Hf | exact Hm].
Qed.

Lemma inv_showEvent (self : TagSearchPanel) :
  inv self -> inv (showEvent self).
Proof.
  intros Hinv. unfold showEvent.
  destruct (negb (is_initialized self)); [|exact Hinv].
  exact (inv_update_tags None self Hinv).
Qed.

Lemma inv_handle (e : Event) (self : TagSearchPanel) :
  inv self -> inv (handle e self).
Proof.
  intros Hinv. destruct e; simpl.
  - apply inv_update_tags, inv_set_text, Hinv.
  - apply inv_on_return, Hinv.
  - apply inv_add_clicked, Hinv.
  - apply inv_showEvent, Hinv.
Qed.

Lemma inv_run (es : list Event) (self : TagSearchPanel) :
  inv self -> inv (run es self).
Proof.
  revert self. induction es as [|e es IH]; intros self Hinv; simpl.
  - exact Hinv.
  - apply IH, inv_handle, Hinv.
Qed.
End RunInvariant.

Lemma inv_init (lb : Library) (excl : option (list Z))
    (chooser : option bool) :
  panel_inv lb (exclude (init lb excl chooser))
    (is_tag_chooser (init lb excl chooser)) (init lb excl chooser).
Proof.
  unfold panel_inv. simpl. repeat split; try contradiction; discriminate.
Qed.

Section Runs.
Variables RESERVED_TAG_START RESERVED_TAG_END : Z.
Variable lower : string -> string.

Local Abbreviation run := (run RESERVED_TAG_START RESERVED_TAG_END lower).
Local Abbreviation handle :=
  (handle RESERVED_TAG_START RESERVED_TAG_END lower).

(** X13. Whatever events a panel handles after it is built (edits, returns,
    clicks on add buttons, show events), its settings stay as built and no
    tag whose identifier is in its exclusion list is ever in its layout. *)
Theorem run_never_shows_excluded (lb : Library) (excl : option (list Z))
    (chooser : option bool) (es : list Event) (t : Tag) :
  let self := run es (init lb excl chooser) in
  lib self = lb
  /\ exclude self = match excl with Some l => l | None => [] end
  /\ is_tag_chooser self = match chooser with Some b => b | None => true end
  /\ (In t (displayed self) -> ~ In (id t) (exclude self)).
Proof.
  intros self.
  destruct (inv_run RESERVED_TAG_START RESERVED_TAG_END lower _ _ _ es _
              (inv_init lb excl chooser)) as (Hl & Hx & Hc & Hr & _).
  fold self in Hl, Hx, Hc, Hr.
  repeat split; try assumption.
  intros Hin Hex. apply layout_tags_In in Hin. destruct Hin as (r & a & Hin).
  destruct (Hr _ _ _ Hin) as (_ & Hne & _).
  rewrite Hx in Hex. apply in_list_In in Hex.
  unfold not_excluded in Hne. simpl in Hex, Hne. rewrite Hex in Hne.
  discriminate.
Qed.

(** X14. A panel built with [is_tag_chooser = False] never emits
    [tag_chosen], whatever edits, returns, clicks and show events it
    handles. *)
Theorem non_chooser_never_emits (lb : Library) (excl : option (list Z))
    (es : list Event) :
  emitted (effects (run es (init lb excl (Some false)))) = [].
Proof.
  destruct (inv_run RESERVED_TAG_START RESERVED_TAG_END lower _ _ _ es _
              (inv_init lb excl (Some false))) as (_ & _ & _ & _ & _ & Hm).
  destruct (emitted (effects (run es (init lb excl (Some false)))))
    as [|i l]; [reflexivity|].
  destruct (Hm i (or_introl eq_refl)) as [H _]. discriminate.
Qed.

(** X15. Every identifier a panel emits, whatever events it handles after
    it is built, is the identifier of a tag that the library returns for
    some query. *)
Theorem emitted_ids_are_library_tags (lb : Library)
    (excl : option (list Z)) (chooser : option bool) (es : list Event)
    (i : Z) :
  In i (emitted (effects (run es (init lb excl chooser)))) ->
  exists t, found_by lb t /\ id t = i.
Proof.
  destruct (inv_run RESERVED_TAG_START RESERVED_TAG_END lower _ _ _ es _
              (inv_init lb excl chooser)) as (_ & _ & _ & _ & _ & Hm).
  intros Hi. now destruct (Hm i Hi).
Qed.
End Runs.

(** ** Runs of the panel over the small library *)

(** The query ["an"] with tag 2 excluded: [first_tag_id] is set to a tag the
    library found. *)
Lemma first_tag_id_none_iff_witness :
  let self := demo_chooser [2%Z] in
  first_tag_id (demo_update_tags (Some "an"%string) self) = Some 5%Z
  /\ exists t, In t (search_tags (lib self) (Some "an"%string))
               /\ id t = 5%Z.
Proof.
  intros self.
  assert (H : first_tag_id (demo_update_tags (Some "an"%string) self)
              = Some 5%Z) by reflexivity.
  split; [exact H|].
  exact (proj2 (first_tag_id_none_iff 0 1000 lower_ascii (Some "an"%string)
                  self) 5%Z H).
Defined.

(** The query ["an"] with tag 2 excluded: Animal matches the prefix, and the
    first match has a display name no longer than its six characters. *)
Lemma first_tag_id_best_prefix_match_witness :
  let self := demo_chooser [2%Z] in
  let query := Some "an"%string in
  In tag_animal (search_tags (lib self) query)
  /\ in_bucket_a lower_ascii (exclude self) query tag_animal = true
  /\ exists top,
       first_tag_id (demo_update_tags query self) = Some (id top)
       /\ display_len (lib self) top <= 6.
Proof.
  intros self query.
  assert (H1 : In tag_animal (search_tags (lib self) query))
    by (vm_compute; auto).
  assert (H2 : in_bucket_a lower_ascii (exclude self) query tag_animal = true)
    by reflexivity.
  split; [exact H1|]. split; [exact H2|].
  destruct (first_tag_id_best_prefix_match 0 1000 lower_ascii query self
              tag_animal H1 H2) as (top & _ & Hf & _ & _ & Hlen & _).
  exists top. split; [exact Hf | exact Hlen].
Defined.

(** With the reserved range from 0 to 3, the row of tag 4 in a panel that is
    no chooser has a remove button and no add button. *)
Lemma row_buttons_witness :
  let self := update_tags 0 3 lower_ascii (Some "an"%string)
                (demo_manager []) in
  In (RowItem tag_ant true false) (scroll_layout self)
  /\ false = is_tag_chooser (demo_manager [])
  /\ ~ (0 <= id tag_ant < 3)%Z.
Proof.
  intros self.
  assert (H : In (RowItem tag_ant true false) (scroll_layout self))
    by (vm_compute; auto).
  split; [exact H|].
  destruct (row_buttons 0 3 lower_ascii (Some "an"%string) (demo_manager [])
              tag_ant true false H) as [Ha Hr].
  split; [exact Ha|]. exact (proj2 (proj1 Hr eq_refl)).
Defined.

(** The query ["n"] with all five tags excluded: an empty layout. *)
Lemma create_button_iff_nothing_found_witness :
  let self := demo_chooser [1; 2; 3; 4; 5]%Z in
  let query := Some "n"%string in
  search_tags (lib self) query <> []
  /\ (forall t, In t (search_tags (lib self) query) ->
                In (id t) (exclude self))
  /\ scroll_layout (demo_update_tags query self) = [].
Proof.
  intros self query.
  assert (H1 : search_tags (lib self) query <> []) by discriminate.
  assert (H2 : forall t, In t (search_tags (lib self) query) ->
                         In (id t) (exclude self)).
  { intros t H. vm_compute in H.
    repeat (destruct H as [H|H]; [subst t; simpl; tauto|]).
    contradiction. }
  split; [exact H1|]. split; [exact H2|].
  exact (proj2 (create_button_iff_nothing_found 0 1000 lower_ascii query self)
           H1 H2).
Defined.

(** A panel built without an exclusion list shows the five tags by name. *)
Lemma first_show_lists_all_witness :
  let self := showEvent 0 1000 lower_ascii (init demo_lib None None) in
  (@None (list Z) = None \/ @None (list Z) = Some [])
  /\ map id (displayed self) = [2; 5; 1; 4; 3]%Z
  /\ displayed self = list_sort (display_name demo_lib) demo_tags.
Proof.
  intros self.
  assert (H : @None (list Z) = None \/ @None (list Z) = Some [])
    by (left; reflexivity).
  split; [exact H|]. split; [reflexivity|].
  exact (proj2 (first_show_lists_all 0 1000 lower_ascii demo_lib None None) H).
Defined.

(** ["zz"] typed and return pressed: the creation of a tag ["zz"] is asked
    for. *)
Lemma return_on_unknown_name_creates_witness :
  let self := demo_chooser [] in
  let self' := return_pressed 0 1000 lower_ascii
                 (text_edited 0 1000 lower_ascii "zz" self) in
  "zz"%string <> EmptyString
  /\ search_tags (lib self) (Some "zz"%string) = []
  /\ effects self' = [SearchFieldSetFocus; CreateAndAddTag "zz"]
  /\ emitted (effects self') = [].
Proof.
  intros self self'.
  assert (H1 : "zz"%string <> EmptyString) by discriminate.
  assert (H2 : search_tags (lib self) (Some "zz"%string) = [])
    by reflexivity.
  split; [exact H1|]. split; [exact H2|].
  destruct (return_on_unknown_name_creates 0 1000 lower_ascii "zz" self H1 H2)
    as (He & Hm & _).
  split; [exact He | exact Hm].
Defined.

(** ["an"] typed and return pressed in a chooser that excludes tag 2: one
    tag is chosen, no longer than Animal. *)
Lemma return_selects_best_prefix_match_witness :
  let self := demo_chooser [2%Z] in
  let self' := return_pressed 0 1000 lower_ascii
                 (text_edited 0 1000 lower_ascii "an" self) in
  "an"%string <> EmptyString
  /\ is_tag_chooser self = true
  /\ In tag_animal (search_tags (lib self) (Some "an"%string))
  /\ not_excluded (exclude self) tag_animal = true
  /\ name_starts_with lower_ascii "an" tag_animal = true
  /\ emitted (effects self') = [5%Z]
  /\ exists top, emitted (effects self') = [id top]
                 /\ display_len demo_lib top <= 6.
Proof.
  intros self self'.
  assert (H1 : "an"%string <> EmptyString) by discriminate.
  assert (H2 : is_tag_chooser self = true) by reflexivity.
  assert (H3 : In tag_animal (search_tags (lib self) (Some "an"%string)))
    by (vm_compute; auto).
  assert (H4 : not_excluded (exclude self) tag_animal = true) by reflexivity.
  assert (H5 : name_starts_with lower_ascii "an" tag_animal = true)
    by reflexivity.
  split; [exact H1|]. split; [exact H2|]. split; [exact H3|].
  split; [exact H4|]. split; [exact H5|]. split; [reflexivity|].
  destruct (return_selects_best_prefix_match 0 1000 lower_ascii "an" self
              tag_animal H1 H2 H3 H4 H5)
    as (top & He & _ & _ & _ & Hlen & _).
  exists top. split; [exact He | exact Hlen].
Defined.

(** ["an"] typed, then return pressed twice: the second return emits
    nothing more. *)
Lemma second_return_dismisses_witness :
  let self := text_edited 0 1000 lower_ascii "an" (demo_chooser []) in
  let self1 := return_pressed 0 1000 lower_ascii self in
  search_field self <> EmptyString
  /\ first_tag_id self = Some 2%Z
  /\ emitted (effects self1) = [2%Z]
  /\ emitted (effects (return_pressed 0 1000 lower_ascii self1))
     = emitted (effects self1).
Proof.
  intros self self1.
  assert (H1 : search_field self <> EmptyString) by discriminate.
  assert (H2 : first_tag_id self = Some 2%Z) by reflexivity.
  split; [exact H1|]. split; [exact H2|]. split; [reflexivity|].
  exact (proj2 (second_return_dismisses 0 1000 lower_ascii 2%Z self H1 H2)).
Defined.

(** After a show event and the edit ["an"], Animal is displayed by a chooser
    that excludes tag 2. *)
Lemma run_never_shows_excluded_witness :
  let self := demo_run [Shown; TextEdited "an"] (init demo_lib (Some [2%Z])
                                                    None) in
  In tag_animal (displayed self) /\ ~ In (id tag_animal) (exclude self).
Proof.
  intros self.
  assert (H : In tag_animal (displayed self)) by (vm_compute; auto).
  split; [exact H|].
  destruct (run_never_shows_excluded 0 1000 lower_ascii demo_lib
              (Some [2%Z]) None [Shown; TextEdited "an"] tag_animal)
    as (_ & _ & _ & Hn).
  exact (Hn H).
Defined.

(** A show event, the edit ["an"] and a return: tag 5 is emitted, a tag of
    the library. *)
Lemma emitted_ids_are_library_tags_witness :
  let es := [Shown; TextEdited "an"; ReturnPressed] in
  In 5%Z (emitted (effects (demo_run es (init demo_lib (Some [2%Z]) None))))
  /\ exists t, found_by demo_lib t /\ id t = 5%Z.
Proof.
  intros es.
  assert (H : In 5%Z (emitted (effects (demo_run es (init demo_lib
                                                       (Some [2%Z]) None)))))
    by (vm_compute; auto).
  split; [exact H|].
  exact (emitted_ids_are_library_tags 0 1000 lower_ascii demo_lib
           (Some [2%Z]) None es 5%Z H).
Defined.

(** ** The leading segment is chosen on the stored name *)

(** C4, as worded with the display name. In [renaming_lib] both display
    names start with the query ["a"], yet tag 1, whose display name is the
    shorter, is shown after tag 2: its stored name does not start with the
    query, so it is in bucket B. *)
Lemma leading_segment_by_display_name_fails :
  let out := displayed (update_tags 0 1000 lower_ascii (Some "a"%string)
                          (init renaming_lib None None)) in
  map id out = [2; 1]%Z
  /\ ~ (forall i j a b,
          nth_error out i = Some a -> nth_error out j = Some b ->
          display_starts_with lower_ascii renaming_lib "a" a = true ->
          display_starts_with lower_ascii renaming_lib "a" b = true ->
          (display_len renaming_lib a < display_len renaming_lib b -> i < j)
          /\ (display_len renaming_lib a = display_len renaming_lib b ->
              String.ltb (display_name renaming_lib a)
                         (display_name renaming_lib b) = true ->
              i < j)).
Proof.
  intros out. split; [reflexivity|].
  intros H.
  destruct (H 1 0 tag_zzz tag_abc eq_refl eq_refl eq_refl eq_refl)
    as [Hlen _].
  assert (Habs : 1 < 0) by (apply Hlen; vm_compute; lia).
  lia.
Qed.

(** ** Clicks on add buttons *)

Section LayoutShape.
Variables RESERVED_TAG_START RESERVED_TAG_END : Z.
Variable lower : string -> string.

Local Abbreviation update_tags :=
  (update_tags RESERVED_TAG_START RESERVED_TAG_END lower).
Local Abbreviation on_return :=
  (on_return RESERVED_TAG_START RESERVED_TAG_END lower).
Local Abbreviation showEvent :=
  (showEvent RESERVED_TAG_START RESERVED_TAG_END lower).
Local Abbreviation handle :=
  (handle RESERVED_TAG_START RESERVED_TAG_END lower).
Local Abbreviation run := (run RESERVED_TAG_START RESERVED_TAG_END lower).
Local Abbreviation shape :=
  (fun self : TagSearchPanel =>
     layout_shape RESERVED_TAG_START RESERVED_TAG_END (is_tag_chooser self)
       (scroll_layout self)).

Lemma shape_update_tags (query : option string) (self : TagSearchPanel) :
  shape (update_tags query self).
Proof.
  destruct (update_tags_frame RESERVED_TAG_START RESERVED_TAG_END lower
              query self) as (_ & _ & Hc & _).
  simpl. rewrite Hc, scroll_layout_update_tags.
  destruct (search_tags (lib self) query).
  - right. now exists query.
  - left. now rewrite layout_tags_rows.
Qed.

Lemma shape_on_return (text : string) (self : TagSearchPanel) :
  shape self -> shape (on_return text self).
Proof.
  intros Hs. unfold on_return.
  destruct (negb (String.eqb text EmptyString)).
  - destruct (first_tag_id self); [apply shape_update_tags | exact Hs].
  - exact Hs.
Qed.

Lemma shape_handle (e : Event) (self : TagSearchPanel) :
  shape self -> shape (handle e self).
Proof.
  intros Hs. destruct e; simpl.
  - apply shape_update_tags.
  - apply shape_on_return, Hs.
  - unfold add_clicked.
    destruct (nth_error (scroll_layout self) row) as [[t r [|]|q]|];
      exact Hs.
  - unfold showEvent. destruct (negb (is_initialized self)); [|exact Hs].
    exact (shape_update_tags None self).
Qed.

Lemma shape_run (es : list Event) (self : TagSearchPanel) :
  shape self -> shape (run es self).
Proof.
  revert self. induction es as [|e es IH]; intros self Hs; simpl.
  - exact Hs.
  - apply IH, shape_handle, Hs.
Qed.

Lemma shape_init (lb : Library) (excl : option (list Z))
    (chooser : option bool) :
  shape (init lb excl chooser).
Proof. left. reflexivity. Qed.

(** What a click at an index does to a panel of that shape. *)
Lemma add_clicked_shape (row : nat) (self : TagSearchPanel) :
  shape self ->
  add_clicked row self
  = match nth_error (displayed self) row with
    | Some t =>
        if is_tag_chooser self then perform (TagChosenEmit (id t)) self
        else self
    | None => self
    end.
Proof.
  intros [Hs | [q Hs]]; unfold add_clicked, displayed.
  - rewrite Hs at 1. rewrite nth_error_map.
    destruct (nth_error (layout_tags (scroll_layout self)) row) as [t|];
      [|reflexivity].
    simpl. destruct (is_tag_chooser self); reflexivity.
  - rewrite Hs. simpl. destruct row as [|[|row]]; reflexivity.
Qed.

(** X16. In any state a panel reaches from its construction, a click on the
    add button of the row at an index emits exactly the identifier of the
    tag displayed at that index, and that tag is not excluded; the click
    is possible in a tag chooser only, and where the index holds no row, or
    the panel is no chooser, nothing happens at all. *)
Theorem add_click_emits_displayed (lb : Library) (excl : option (list Z))
    (chooser : option bool) (es : list Event) (row : nat) :
  let self := run es (init lb excl chooser) in
  let self' := handle (AddClicked row) self in
  (forall t, is_tag_chooser self = true ->
             nth_error (displayed self) row = Some t ->
             self' = perform (TagChosenEmit (id t)) self
             /\ emitted (effects self') = emitted (effects self) ++ [id t]
             /\ ~ In (id t) (exclude self))
  /\ (is_tag_chooser self = false \/ nth_error (displayed self) row = None ->
      self' = self).
Proof.
  intros self self'.
  assert (E : self' = match nth_error (displayed self) row with
                      | Some t =>
                          if is_tag_chooser self
                          then perform (TagChosenEmit (id t)) self
                          else self
                      | None => self
                      end).
  { apply add_clicked_shape. apply shape_run, shape_init. }
  split.
  - intros t Hc Ht. rewrite Ht, Hc in E.
    split; [exact E|]. split; [rewrite E; simpl; apply emitted_app|].
    destruct (inv_run RESERVED_TAG_START RESERVED_TAG_END lower _ _ _ es _
                (inv_init lb excl chooser)) as (_ & Hx & _ & Hr & _).
    fold self in Hx, Hr.
    apply nth_error_In, layout_tags_In in Ht. destruct Ht as (r & a & Ht).
    destruct (Hr _ _ _ Ht) as (_ & Hne & _).
    intros Hex. rewrite Hx in Hex. apply in_list_In in Hex.
    unfold not_excluded in Hne. rewrite Hex in Hne. discriminate.
  - intros [Hc | Hn]; rewrite E.
    + rewrite Hc. now destruct (nth_error (displayed self) row).
    + now rewrite Hn.
Qed.
End LayoutShape.

(** After a show event and the edit ["an"] in a chooser that excludes tag 2,
    the row at index 1 shows Ant: a click on its add button emits 4. *)
Lemma add_click_emits_displayed_witness :
  let self := demo_run [Shown; TextEdited "an"]
                (init demo_lib (Some [2%Z]) None) in
  let self' := handle 0 1000 lower_ascii (AddClicked 1) self in
  is_tag_chooser self = true
  /\ nth_error (displayed self) 1 = Some tag_ant
  /\ emitted (effects self') = emitted (effects self) ++ [4%Z]
  /\ ~ In 4%Z (exclude self).
Proof.
  intros self self'.
  assert (Hc : is_tag_chooser self = true) by reflexivity.
  assert (Ht : nth_error (displayed self) 1 = Some tag_ant) by reflexivity.
  split; [exact Hc|]. split; [exact Ht|].
  destruct (proj1 (add_click_emits_displayed 0 1000 lower_ascii demo_lib
                     (Some [2%Z]) None [Shown; TextEdited "an"] 1)
              tag_ant Hc Ht) as (_ & He & Hn).
  split; [exact He | exact Hn].
Defined.
